(** * Birding Suggester: the client view [App.tsx] as a state machine

    The React component [App] of [client/src/App.tsx] is embedded as
    - a record [State] holding the eleven [useState] cells,
    - one state transformer per event handler, written in a small state
      monad whose setters are the [setX] functions of the component,
    - a function [App] from [State] to the tree of elements it returns.

    JavaScript strings are sequences of UTF-16 code units.  A JavaScript
    number is [NaN], an infinity or a finite binary64 value, written as
    the exact decimal [m * 10^e] it is equal to: [Number] rounds what it
    reads to the nearest binary64 value, and [toString] prints the
    shortest digits that read back as the same value.  The sign of zero is
    not represented. *)

From Stdlib Require Import String Ascii List ZArith NArith QArith Qabs Bool Lia.
Import ListNotations.
Close Scope Q_scope.
Open Scope Z_scope.

(** ** JavaScript strings *)

Module JsString.

Definition jsstring := list N.

Definition lit (s : string) : jsstring :=
  map N_of_ascii (list_ascii_of_string s).

Fixpoint eqb (a b : jsstring) : bool :=
  match a, b with
  | [], [] => true
  | x :: a', y :: b' => N.eqb x y && eqb a' b'
  | _, _ => false
  end.

Definition inRange (lo hi c : N) : bool := (N.leb lo c && N.leb c hi)%bool.

(** WhiteSpace and LineTerminator code points of ECMAScript, the ones
    [String.prototype.trim] strips and [StringToNumber] skips. *)
Definition isWhiteSpace (c : N) : bool :=
  (inRange 9 13 c || N.eqb c 32 || N.eqb c 160 || N.eqb c 5760
   || inRange 8192 8202 c || N.eqb c 8232 || N.eqb c 8233
   || N.eqb c 8239 || N.eqb c 8287 || N.eqb c 12288 || N.eqb c 65279)%bool.

Fixpoint dropWhile (p : N -> bool) (s : jsstring) : jsstring :=
  match s with
  | [] => []
  | c :: r => if p c then dropWhile p r else s
  end.

Fixpoint span (p : N -> bool) (s : jsstring) : jsstring * jsstring :=
  match s with
  | [] => ([], [])
  | c :: r =>
      if p c then let (a, b) := span p r in (c :: a, b) else ([], s)
  end.

Definition trimStart (s : jsstring) : jsstring := dropWhile isWhiteSpace s.
Definition trimEnd (s : jsstring) : jsstring := rev (trimStart (rev s)).
Definition trim (s : jsstring) : jsstring := trimEnd (trimStart s).

(** The character class [\d] of a regular expression without flags. *)
Definition isDigit (c : N) : bool := inRange 48 57 c.

(** [s.replace(/\D/g, '')]: every code unit that is not a digit is
    replaced by the empty string. *)
Definition removeNonDigits (s : jsstring) : jsstring := filter isDigit s.

(** Truthiness of a string: the empty string is the only falsy one. *)
Definition truthy (s : jsstring) : bool :=
  match s with [] => false | _ :: _ => true end.

End JsString.
Import JsString.

Notation "` s" := (lit s%string) (at level 1, format "` s").

(** ** JavaScript numbers *)

Module JsNumber.

Inductive number : Type :=
| NaN
| Infinity (negative : bool)
| Fin (m e : Z).   (* the value m * 10^e *)

Definition isNaN (x : number) : bool :=
  match x with NaN => true | _ => false end.


(** *** Decimal digits *)

Definition digitChar (d : Z) : N := (48 + Z.to_N d)%N.

(** Least significant digit first; [fuel] bounds the number of digits. *)
Fixpoint revDigits (fuel : nat) (n : Z) : jsstring :=
  match fuel with
  | O => []
  | S k =>
      digitChar (n mod 10) :: (if n <? 10 then [] else revDigits k (n / 10))
  end.

(** The decimal representation of a non-negative integer ("0" for 0). *)
Definition decimalDigits (n : Z) : jsstring :=
  rev (revDigits (S (Z.to_nat (Z.log2 n))) n).

Fixpoint digitsValue (acc : Z) (ds : jsstring) : Z :=
  match ds with
  | [] => acc
  | c :: r => digitsValue (acc * 10 + Z.of_N (c - 48)) r
  end.

(** *** Rounding to binary64 *)

(** A decimal without trailing zeros in its mantissa. *)
Fixpoint stripZeros (fuel : nat) (m e : Z) : Z * Z :=
  match fuel with
  | O => (m, e)
  | S k => if m mod 10 =? 0 then stripZeros k (m / 10) (e + 1) else (m, e)
  end.

Definition normalize (m e : Z) : number :=
  if m =? 0 then Fin 0 0
  else let (m', e') := stripZeros (Z.to_nat (Z.log2 (Z.abs m))) m e in
       Fin m' e'.

(** The integer nearest to [num / den], the even one of two. *)
Definition roundHalfEven (num den : Z) : Z :=
  let q := num / den in
  let r := num mod den in
  if 2 * r <? den then q
  else if den <? 2 * r then q + 1
  else if Z.even q then q else q + 1.

(** The integer [b] with [2^b <= p / q < 2^(b+1)], for positive [p], [q]. *)
Definition binaryExponent (p q : Z) : Z :=
  let l := Z.log2 p - Z.log2 q in
  if (if 0 <=? l then q * 2 ^ l <=? p else q <=? p * 2 ^ (- l))
  then l else l - 1.

(** The binary64 value nearest to [p / q], the one with an even
    significand of two: a significand [M] of at most 53 bits at an
    exponent [E] of at least -1074, and an infinity from [2^1024] on. *)
Definition roundBinary64 (negative : bool) (p q : Z) : number :=
  if p =? 0 then Fin 0 0
  else
    let E := Z.max (binaryExponent p q - 52) (-1074) in
    let M := if 0 <=? E then roundHalfEven p (q * 2 ^ E)
             else roundHalfEven (p * 2 ^ (- E)) q in
    if ((0 <=? E) && (2 ^ 1024 <=? M * 2 ^ E))%bool then Infinity negative
    else
      let M' := if negative then - M else M in
      if 0 <=? E then normalize (M' * 2 ^ E) 0
      else normalize (M' * 5 ^ (- E)) E.

(** The binary64 value nearest to [m * 10^e]. *)
Definition toBinary64 (m e : Z) : number :=
  if 0 <=? e then roundBinary64 (m <? 0) (Z.abs m * 10 ^ e) 1
  else roundBinary64 (m <? 0) (Z.abs m) (10 ^ (- e)).

Definition eqb (x y : number) : bool :=
  match x, y with
  | NaN, NaN => true
  | Infinity a, Infinity b => Bool.eqb a b
  | Fin m1 e1, Fin m2 e2 => ((m1 =? m2) && (e1 =? e2))%bool
  | _, _ => false
  end.

(** *** StringToNumber, the conversion [Number(s)] applies to a string *)

Definition digitOf (c : N) : option Z :=
  if isDigit c then Some (Z.of_N (c - 48))
  else if inRange 97 102 c then Some (Z.of_N (c - 87))
  else if inRange 65 70 c then Some (Z.of_N (c - 55))
  else None.

Fixpoint radixValue (radix acc : Z) (s : jsstring) : option Z :=
  match s with
  | [] => Some acc
  | c :: r =>
      match digitOf c with
      | Some d => if d <? radix then radixValue radix (acc * radix + d) r
                  else None
      | None => None
      end
  end.

(** NonDecimalIntegerLiteral: 0x, 0o or 0b (either case) and at least one
    digit of that radix. *)
Definition nonDecimalLiteral (s : jsstring) : option Z :=
  match s with
  | z :: p :: ((_ :: _) as ds) =>
      if N.eqb z 48 then
        if (N.eqb p 120 || N.eqb p 88)%bool then radixValue 16 0 ds
        else if (N.eqb p 111 || N.eqb p 79)%bool then radixValue 8 0 ds
        else if (N.eqb p 98 || N.eqb p 66)%bool then radixValue 2 0 ds
        else None
      else None
  | _ => None
  end.

Definition allDigits (s : jsstring) : bool := forallb isDigit s.

(** ExponentPart_opt at the end of a literal: nothing, or [e]/[E], an
    optional sign and at least one digit. *)
Definition exponentPart (s : jsstring) : option Z :=
  match s with
  | [] => Some 0
  | c :: r =>
      if (N.eqb c 101 || N.eqb c 69)%bool then
        match r with
        | [] => None
        | g :: ds =>
            if N.eqb g 43 then
              if (truthy ds && allDigits ds)%bool
              then Some (digitsValue 0 ds) else None
            else if N.eqb g 45 then
              if (truthy ds && allDigits ds)%bool
              then Some (- digitsValue 0 ds) else None
            else if allDigits r then Some (digitsValue 0 r) else None
        end
      else None
  end.

(** StrUnsignedDecimalLiteral, with the sign already read: the value of
    the literal, rounded to binary64. *)
Definition strUnsignedDecimalLiteral (negative : bool) (s : jsstring)
  : number :=
  if JsString.eqb s `"Infinity" then Infinity negative
  else
    let (ip, r1) := span isDigit s in
    let (fp, r2) :=
      match r1 with
      | c :: t => if N.eqb c 46 then span isDigit t else ([], r1)
      | [] => ([], r1)
      end in
    if (truthy ip || truthy fp)%bool then
      match exponentPart r2 with
      | Some x =>
          let n := digitsValue 0 (ip ++ fp) in
          toBinary64 (if negative then - n else n) (x - Z.of_nat (length fp))
      | None => NaN
      end
    else NaN.

(** [Number(s)] for a string [s]. *)
Definition Number (s : jsstring) : number :=
  let t := trim s in
  match t with
  | [] => Fin 0 0
  | c :: r =>
      match nonDecimalLiteral t with
      | Some n => toBinary64 n 0
      | None =>
          if N.eqb c 43 then strUnsignedDecimalLiteral false r
          else if N.eqb c 45 then strUnsignedDecimalLiteral true r
          else strUnsignedDecimalLiteral false t
      end
  end.

(** *** Number::toString (radix 10) *)

(** The digits of a positive mantissa without its trailing zeros, and the
    number of zeros removed. *)
Definition significantDigits (a : Z) : jsstring * nat :=
  let r := revDigits (S (Z.to_nat (Z.log2 a))) a in
  let r' := dropWhile (N.eqb 48) r in
  (rev r', (length r - length r')%nat).

Definition zeros (n : nat) : jsstring := repeat 48%N n.

Definition toStringPositive (a e : Z) : jsstring :=
  let (ds, z) := significantDigits a in
  let k := Z.of_nat (length ds) in
  let n := k + (e + Z.of_nat z) in
  if ((k <=? n) && (n <=? 21))%bool then
    ds ++ zeros (Z.to_nat (n - k))
  else if ((0 <? n) && (n <=? 21))%bool then
    firstn (Z.to_nat n) ds ++ `"." ++ skipn (Z.to_nat n) ds
  else if ((-6 <? n) && (n <=? 0))%bool then
    `"0." ++ zeros (Z.to_nat (- n)) ++ ds
  else
    let x := n - 1 in
    let sign := if x <? 0 then `"-" else `"+" in
    match ds with
    | [d] => [d] ++ `"e" ++ sign ++ decimalDigits (Z.abs x)
    | d :: rest => [d] ++ `"." ++ rest ++ `"e" ++ sign ++ decimalDigits (Z.abs x)
    | [] => []
    end.

(** The shortest decimal [s * 10^t] that rounds to [x], the value
    [a * 10^e]: for 1, 2, ... digits, the two decimals of that many
    digits around [x] are tried; of two that round to [x] the one nearer
    to [x] is taken, the even one when they are as near. *)
Fixpoint shortestDigits (fuel : nat) (k : Z) (a e : Z) (x : number)
  : option (Z * Z) :=
  match fuel with
  | O => None
  | S fuel' =>
      let t := Z.of_nat (length (decimalDigits a)) + e - k in
      let lo := if t <=? e then a * 10 ^ (e - t) else a / 10 ^ (t - e) in
      let hi := lo + 1 in
      let okLo := eqb (toBinary64 lo t) x in
      let okHi := eqb (toBinary64 hi t) x in
      if (okLo && okHi)%bool then
        if t <=? e then Some (lo, t)
        else
          let d := 10 ^ (t - e) in
          let r := a mod d in
          if 2 * r <? d then Some (lo, t)
          else if d <? 2 * r then Some (hi, t)
          else if Z.even lo then Some (lo, t) else Some (hi, t)
      else if okLo then Some (lo, t)
      else if okHi then Some (hi, t)
      else shortestDigits fuel' (k + 1) a e x
  end.

(** The text of a positive value: the shortest digits that read back as
    the same binary64 value, of which 17 always are enough; for a value
    that is no binary64 value, all its digits. *)
Definition toStringShortest (a e : Z) : jsstring :=
  match shortestDigits 17 1 a e (normalize a e) with
  | Some (s, t) => toStringPositive s t
  | None => toStringPositive a e
  end.

Definition toString (x : number) : jsstring :=
  match x with
  | NaN => `"NaN"
  | Infinity negative => if negative then `"-Infinity" else `"Infinity"
  | Fin m e =>
      if m =? 0 then `"0"
      else if m <? 0 then `"-" ++ toStringShortest (- m) e
      else toStringShortest m e
  end.

(** *** Number.prototype.toFixed *)

(** The integer n for which n - a * 10^k is closest to zero, the larger
    one when there are two (a >= 0). *)
Definition roundScaled (a k : Z) : Z :=
  if 0 <=? k then a * 10 ^ k
  else let d := 10 ^ (- k) in (2 * a + d) / (2 * d).

(** Whether a * 10^e >= 10^21. *)
Definition atLeast1e21 (a e : Z) : bool :=
  if 0 <=? e then 10 ^ 21 <=? a * 10 ^ e else 10 ^ (21 - e) <=? a.

Definition toFixed (x : number) (f : nat) : jsstring :=
  match x with
  | Fin m e =>
      let s := if m <? 0 then `"-" else [] in
      let a := Z.abs m in
      if atLeast1e21 a e then s ++ toString (Fin a e)
      else
        let n := roundScaled a (e + Z.of_nat f) in
        let m := decimalDigits n in
        let m :=
          match f with
          | O => m
          | S _ =>
              let k := length m in
              let m := if (k <=? f)%nat then zeros (f + 1 - k) ++ m else m in
              let k := length m in
              firstn (k - f) m ++ `"." ++ skipn (k - f) m
          end in
        s ++ m
  | _ => toString x
  end.

End JsNumber.
Import JsNumber.

(** ** URLSearchParams *)

Module URLSearchParams.

Definition t := list (jsstring * jsstring).

(** [params.set(name, value)]: the first pair named [name] takes the new
    value and the later ones are removed; without such a pair, a new one
    is appended. *)
Fixpoint remove (name : jsstring) (l : t) : t :=
  match l with
  | [] => []
  | (k, v) :: r =>
      if JsString.eqb k name then remove name r else (k, v) :: remove name r
  end.

Fixpoint set (l : t) (name value : jsstring) : t :=
  match l with
  | [] => [(name, value)]
  | (k, v) :: r =>
      if JsString.eqb k name then (k, value) :: remove name r
      else (k, v) :: set r name value
  end.

(** Conversion to scalar values: a surrogate pair is one code point, a
    lone surrogate becomes U+FFFD. *)
Fixpoint scalarValues (s : jsstring) : list N :=
  match s with
  | [] => []
  | c :: r =>
      if inRange 55296 56319 c then
        match r with
        | d :: r' =>
            if inRange 56320 57343 d
            then (65536 + (c - 55296) * 1024 + (d - 56320))%N :: scalarValues r'
            else 65533%N :: scalarValues r
        | [] => [65533%N]
        end
      else if inRange 56320 57343 c then 65533%N :: scalarValues r
      else c :: scalarValues r
  end.

Definition utf8 (cp : N) : list N :=
  (if cp <? 128 then [cp]
   else if cp <? 2048 then [192 + cp / 64; 128 + cp mod 64]
   else if cp <? 65536 then
     [224 + cp / 4096; 128 + (cp / 64) mod 64; 128 + cp mod 64]
   else
     [240 + cp / 262144; 128 + (cp / 4096) mod 64;
      128 + (cp / 64) mod 64; 128 + cp mod 64])%N.

Definition hexDigit (d : N) : N := (if d <? 10 then 48 + d else 55 + d)%N.

(** The application/x-www-form-urlencoded byte serializer: a space is a
    plus sign, ASCII letters and digits and [*-._] stay, every other byte
    is percent-encoded. *)
Definition encodeByte (b : N) : jsstring :=
  if N.eqb b 32 then [43%N]
  else if (inRange 48 57 b || inRange 65 90 b || inRange 97 122 b
           || N.eqb b 42 || N.eqb b 45 || N.eqb b 46 || N.eqb b 95)%bool
  then [b]
  else [37%N; hexDigit (b / 16); hexDigit (b mod 16)].

Definition encode (s : jsstring) : jsstring :=
  flat_map encodeByte (flat_map utf8 (scalarValues s)).

Fixpoint toString (l : t) : jsstring :=
  match l with
  | [] => []
  | [(k, v)] => encode k ++ `"=" ++ encode v
  | (k, v) :: r => encode k ++ `"=" ++ encode v ++ `"&" ++ toString r
  end.

End URLSearchParams.

(** ** Data model of [App.tsx] *)

Record Coordinates : Type := { lat : number; lng : number }.

Module HotspotActivity.
Record t : Type := {
  checklistCount : number;
  observationCount : number;
  lastObservationDate : option jsstring;
  score : number
}.
End HotspotActivity.

Module Hotspot.
Record t : Type := {
  locId : jsstring;
  name : jsstring;
  latitude : number;
  longitude : number;
  countryCode : jsstring;
  regionCode : jsstring;
  distanceKm : option number;
  url : jsstring;
  activity : HotspotActivity.t
}.
End Hotspot.

Inductive Mode : Type := random | top.

Definition Mode_eqb (a b : Mode) : bool :=
  match a, b with
  | random, random | top, top => true
  | _, _ => false
  end.

(** The eleven [useState] cells of the component. *)
Record State : Type := {
  mode : Mode;
  distanceKm : number;
  postalCode : jsstring;
  coords : option Coordinates;
  loading : bool;
  geolocating : bool;
  error : option jsstring;
  status : option jsstring;
  randomHotspot : option Hotspot.t;
  topHotspots : list Hotspot.t;
  hasFetched : bool
}.

(** The arguments of the [useState] calls. *)
Definition initialState : State := {|
  mode := random;
  distanceKm := Fin 25 0;
  postalCode := [];
  coords := None;
  loading := false;
  geolocating := false;
  error := None;
  status := None;
  randomHotspot := None;
  topHotspots := [];
  hasFetched := false
|}.

(** ** The environment of the component *)

(** [import.meta.env]: the variable is [undefined] when the build does not
    set it. *)
Record ImportMetaEnv : Type := { VITE_API_BASE_URL : option jsstring }.

Definition API_BASE_URL (env : ImportMetaEnv) : jsstring :=
  match VITE_API_BASE_URL env with
  | Some u => u
  | None => `"http://localhost:4000/api"
  end.

(** [navigator]: whether [navigator.geolocation] is there. *)
Record Navigator : Type := { geolocation : bool }.

Module Geolocation.
Record Coords : Type := { latitude : number; longitude : number }.
Record Position : Type := { coords : Coords }.
Record PositionError : Type := { code : N; message : option jsstring }.
End Geolocation.

(** What a [throw] or a rejected promise carries: an [Error] with its
    message, or a value that is not an instance of [Error]. *)
Inductive Thrown : Type :=
| ErrorObject (message : jsstring)
| NotAnError.

Inductive Completion (A : Type) : Type :=
| Normal (a : A)
| Throw (t : Thrown).
Arguments Normal {A} a.
Arguments Throw {A} t.

(** The fields the component reads from the JSON body of a response.  An
    absent field and a [null] one are both [None]. *)
Module Payload.
Record t : Type := {
  message : option jsstring;
  hotspot : option Hotspot.t;
  hotspots : option (list Hotspot.t)
}.
End Payload.

(** What [response.json()] resolves to: [null], or a value with its
    fields (an object; a number, a string, a boolean or an array has none
    of the three). *)
Inductive Json : Type :=
| null
| value (fields : Payload.t).

(** The [TypeError] of reading a property of [null].  Its text is the
    engine's; this is the text of V8. *)
Definition nullPropertyError (property : string) : Thrown :=
  ErrorObject (lit "Cannot read properties of null (reading '"
                 ++ lit property ++ lit "')").

(** A response: its status code and what [response.json()] settles to. *)
Module Response.
Record t : Type := { status : N; json : Completion Json }.
Definition ok (r : t) : bool := inRange 200 299 (status r).
End Response.

(** ** Handlers as state transformers that may throw *)

Definition M (A : Type) : Type := State -> Completion A * State.

Definition ret {A} (a : A) : M A := fun s => (Normal a, s).

Definition bind {A B} (m : M A) (k : A -> M B) : M B :=
  fun s =>
    match m s with
    | (Normal a, s') => k a s'
    | (Throw t, s') => (Throw t, s')
    end.

Definition throw {A} (t : Thrown) : M A := fun s => (Throw t, s).

(** [await p] for a promise that has settled to [c]. *)
Definition await {A} (c : Completion A) : M A := fun s => (c, s).

Definition tryCatch {A} (body : M A) (handler : Thrown -> M A) : M A :=
  fun s =>
    match body s with
    | (Normal a, s') => (Normal a, s')
    | (Throw t, s') => handler t s'
    end.

Definition tryFinally {A} (body : M A) (finalizer : M unit) : M A :=
  fun s =>
    match body s with
    | (c, s') =>
        match finalizer s' with
        | (Normal _, s'') => (c, s'')
        | (Throw t, s'') => (Throw t, s'')
        end
    end.

Definition exec {A} (m : M A) (s : State) : State := snd (m s).

Declare Scope handler_scope.
Delimit Scope handler_scope with handler.
Notation "x <- m ;; k" := (bind m (fun x => k))
  (at level 61, m at next level, right associativity) : handler_scope.
Notation "m ;; k" := (bind m (fun _ => k))
  (at level 61, right associativity) : handler_scope.
Open Scope handler_scope.

(** The setters returned by [useState]. *)
Definition setMode (v : Mode) : M unit := fun s =>
  (Normal tt,
   {| mode := v; distanceKm := distanceKm s; postalCode := postalCode s;
      coords := coords s; loading := loading s; geolocating := geolocating s;
      error := error s; status := status s;
      randomHotspot := randomHotspot s; topHotspots := topHotspots s;
      hasFetched := hasFetched s |}).

Definition setDistanceKm (v : number) : M unit := fun s =>
  (Normal tt,
   {| mode := mode s; distanceKm := v; postalCode := postalCode s;
      coords := coords s; loading := loading s; geolocating := geolocating s;
      error := error s; status := status s;
      randomHotspot := randomHotspot s; topHotspots := topHotspots s;
      hasFetched := hasFetched s |}).

Definition setPostalCode (v : jsstring) : M unit := fun s =>
  (Normal tt,
   {| mode := mode s; distanceKm := distanceKm s; postalCode := v;
      coords := coords s; loading := loading s; geolocating := geolocating s;
      error := error s; status := status s;
      randomHotspot := randomHotspot s; topHotspots := topHotspots s;
      hasFetched := hasFetched s |}).

Definition setCoords (v : option Coordinates) : M unit := fun s =>
  (Normal tt,
   {| mode := mode s; distanceKm := distanceKm s; postalCode := postalCode s;
      coords := v; loading := loading s; geolocating := geolocating s;
      error := error s; status := status s;
      randomHotspot := randomHotspot s; topHotspots := topHotspots s;
      hasFetched := hasFetched s |}).

Definition setLoading (v : bool) : M unit := fun s =>
  (Normal tt,
   {| mode := mode s; distanceKm := distanceKm s; postalCode := postalCode s;
      coords := coords s; loading := v; geolocating := geolocating s;
      error := error s; status := status s;
      randomHotspot := randomHotspot s; topHotspots := topHotspots s;
      hasFetched := hasFetched s |}).

Definition setGeolocating (v : bool) : M unit := fun s =>
  (Normal tt,
   {| mode := mode s; distanceKm := distanceKm s; postalCode := postalCode s;
      coords := coords s; loading := loading s; geolocating := v;
      error := error s; status := status s;
      randomHotspot := randomHotspot s; topHotspots := topHotspots s;
      hasFetched := hasFetched s |}).

Definition setError (v : option jsstring) : M unit := fun s =>
  (Normal tt,
   {| mode := mode s; distanceKm := distanceKm s; postalCode := postalCode s;
      coords := coords s; loading := loading s; geolocating := geolocating s;
      error := v; status := status s;
      randomHotspot := randomHotspot s; topHotspots := topHotspots s;
      hasFetched := hasFetched s |}).

Definition setStatus (v : option jsstring) : M unit := fun s =>
  (Normal tt,
   {| mode := mode s; distanceKm := distanceKm s; postalCode := postalCode s;
      coords := coords s; loading := loading s; geolocating := geolocating s;
      error := error s; status := v;
      randomHotspot := randomHotspot s; topHotspots := topHotspots s;
      hasFetched := hasFetched s |}).

Definition setRandomHotspot (v : option Hotspot.t) : M unit := fun s =>
  (Normal tt,
   {| mode := mode s; distanceKm := distanceKm s; postalCode := postalCode s;
      coords := coords s; loading := loading s; geolocating := geolocating s;
      error := error s; status := status s;
      randomHotspot := v; topHotspots := topHotspots s;
      hasFetched := hasFetched s |}).

Definition setTopHotspots (v : list Hotspot.t) : M unit := fun s =>
  (Normal tt,
   {| mode := mode s; distanceKm := distanceKm s; postalCode := postalCode s;
      coords := coords s; loading := loading s; geolocating := geolocating s;
      error := error s; status := status s;
      randomHotspot := randomHotspot s; topHotspots := v;
      hasFetched := hasFetched s |}).

Definition setHasFetched (v : bool) : M unit := fun s =>
  (Normal tt,
   {| mode := mode s; distanceKm := distanceKm s; postalCode := postalCode s;
      coords := coords s; loading := loading s; geolocating := geolocating s;
      error := error s; status := status s;
      randomHotspot := randomHotspot s; topHotspots := topHotspots s;
      hasFetched := v |}).

(** [a ?? b] *)
Definition nullish {A} (a : option A) (b : A) : A :=
  match a with Some x => x | None => b end.
Infix "??" := nullish (at level 45, left associativity).

(** ** The functions of the component

    A handler is a closure created by a render: [r] is the state that
    render saw, the values the handler reads; the setters act on the
    current state. *)

Definition isNull {A} (a : option A) : bool :=
  match a with Some _ => false | None => true end.

Definition locationLabel (r : State) : jsstring :=
  match coords r with
  | Some c =>
      `"Using your GPS location (" ++ toFixed (lat c) 2 ++ `", "
        ++ toFixed (lng c) 2 ++ `")"
  | None =>
      if truthy (trim (postalCode r))
      then `"Using ZIP code " ++ trim (postalCode r)
      else `"Provide a ZIP code or share your location to get started."
  end.

(** The [params] object of [buildQuery] when it is serialized. *)
Definition buildQueryParams (r : State) : URLSearchParams.t :=
  let params := [(`"distanceKm", toString (distanceKm r))] in
  match coords r with
  | Some c =>
      let params := URLSearchParams.set params `"lat" (toString (lat c)) in
      URLSearchParams.set params `"lng" (toString (lng c))
  | None =>
      if truthy (trim (postalCode r))
      then URLSearchParams.set params `"postalCode" (trim (postalCode r))
      else params
  end.

Definition buildQuery (r : State) : jsstring :=
  URLSearchParams.toString (buildQueryParams r).

Definition validationMessage : jsstring :=
  `"Enter a valid 5-digit ZIP code or allow location access.".

Definition endpoint (r : State) : jsstring :=
  match mode r with
  | random => `"hotspots/random"
  | top => `"hotspots/top"
  end.

(** [fetchHotspots] up to the call of [fetch]: the result is the URL
    requested, [None] when the function returns without a request. *)
Definition fetchHotspots_start (env : ImportMetaEnv) (r : State)
  : M (option jsstring) :=
  setError None ;;
  setStatus None ;;
  setRandomHotspot None ;;
  setTopHotspots [] ;;
  setHasFetched false ;;
  if (isNull (coords r) && negb (length (trim (postalCode r)) =? 5)%nat)%bool
  then
    setError (Some validationMessage) ;;
    ret None
  else
    setLoading true ;;
    ret (Some (API_BASE_URL env ++ `"/" ++ endpoint r ++ `"?" ++ buildQuery r)).

(** [payload.property]: a [TypeError] when [payload] is [null]. *)
Definition member {A} (payload : Json) (property : string)
  (field : Payload.t -> A) : M A :=
  match payload with
  | null => throw (nullPropertyError property)
  | value fields => ret (field fields)
  end.

(** [fetchHotspots] from the settling of the [fetch] promise on. *)
Definition fetchHotspots_settle (r : State) (fetched : Completion Response.t)
  : M unit :=
  tryFinally
    (tryCatch
       (response <- await fetched ;;
        payload <- await (Response.json response) ;;
        (if negb (Response.ok response)
         then (message <- member payload "message" Payload.message ;;
               throw (ErrorObject (message ?? `"Unable to fetch hotspots.")))
         else ret tt) ;;
        match mode r with
        | random =>
            hotspot <- member payload "hotspot" Payload.hotspot ;;
            setRandomHotspot hotspot
        | top =>
            hotspots <- member payload "hotspots" Payload.hotspots ;;
            setTopHotspots (hotspots ?? [])
        end ;;
        setHasFetched true)
       (fun err =>
          let message :=
            match err with
            | ErrorObject m => m
            | NotAnError => `"Unexpected error."
            end in
          setError (Some message)))
    (setLoading false).

(** A whole call of [fetchHotspots] with no other event in between;
    [network] is what the request settles to. *)
Definition fetchHotspots (env : ImportMetaEnv) (r : State)
  (network : jsstring -> Completion Response.t) : M unit :=
  request <- fetchHotspots_start env r ;;
  match request with
  | Some url => fetchHotspots_settle r (network url)
  | None => ret tt
  end.

Definition handleSubmit := fetchHotspots.

(** [requestCurrentLocation]: the result tells whether
    [getCurrentPosition] was called. *)
Definition requestCurrentLocation (navigator : Navigator) : M bool :=
  if negb (geolocation navigator) then
    setError (Some `"Geolocation is not supported in this browser.") ;;
    ret false
  else
    setGeolocating true ;;
    setStatus (Some `"Requesting your location...") ;;
    setError None ;;
    ret true.

(** The two callbacks [requestCurrentLocation] hands to
    [getCurrentPosition]. *)
Definition requestCurrentLocation_success (position : Geolocation.Position)
  : M unit :=
  setCoords (Some {|
    lat := Number (toFixed (Geolocation.latitude (Geolocation.coords position)) 4);
    lng := Number (toFixed (Geolocation.longitude (Geolocation.coords position)) 4)
  |}) ;;
  setPostalCode [] ;;
  setGeolocating false ;;
  setStatus (Some `"Location locked in. Ready when you are!").

Definition requestCurrentLocation_error (geoError : Geolocation.PositionError)
  : M unit :=
  setGeolocating false ;;
  setStatus None ;;
  setError (Some (Geolocation.message geoError
                    ?? `"Unable to access your location.")).

(** The effect with dependency [mode]. *)
Definition modeEffect : M unit :=
  setRandomHotspot None ;;
  setTopHotspots [] ;;
  setStatus None ;;
  setError None ;;
  setHasFetched false.

(** A click on one of the two mode buttons: [setMode], and the effect
    when the next render sees another mode than [r] had. *)
Definition mode_onClick (m : Mode) (r : State) : M unit :=
  setMode m ;;
  if Mode_eqb m (mode r) then ret tt else modeEffect.

(** [onChange] of the radius input. *)
Definition distance_onChange (eventTargetValue : jsstring) : M unit :=
  let value := Number eventTargetValue in
  setDistanceKm (if isNaN value then Fin 1 0 else value).

(** [onChange] of the ZIP input. *)
Definition zip_onChange (eventTargetValue : jsstring) : M unit :=
  let value := removeNonDigits eventTargetValue in
  setPostalCode value ;;
  if truthy value then setCoords None else ret tt.

(** ** The component as a transition system *)

Inductive Event : Type :=
| ModeClicked (m : Mode)
| DistanceChanged (eventTargetValue : jsstring)
| ZipChanged (eventTargetValue : jsstring)
| LocationClicked
| PositionReceived (position : Geolocation.Position)
| PositionFailed (geoError : Geolocation.PositionError)
| SubmitClicked
| FetchSettled (r : State) (fetched : Completion Response.t).

(** One event on the rendered state [s].  A disabled button receives no
    click.  [FetchSettled] carries the state its call of [fetchHotspots]
    started from. *)
Definition step (env : ImportMetaEnv) (navigator : Navigator)
  (ev : Event) (s : State) : State :=
  match ev with
  | ModeClicked m => exec (mode_onClick m s) s
  | DistanceChanged v => exec (distance_onChange v) s
  | ZipChanged v => exec (zip_onChange v) s
  | LocationClicked =>
      if geolocating s then s else exec (requestCurrentLocation navigator) s
  | PositionReceived p => exec (requestCurrentLocation_success p) s
  | PositionFailed e => exec (requestCurrentLocation_error e) s
  | SubmitClicked =>
      if loading s then s else exec (fetchHotspots_start env s) s
  | FetchSettled r fetched => exec (fetchHotspots_settle r fetched) s
  end.

Fixpoint run (env : ImportMetaEnv) (navigator : Navigator)
  (evs : list Event) (s : State) : State :=
  match evs with
  | [] => s
  | ev :: rest => run env navigator rest (step env navigator ev s)
  end.

(** The location input a submit would use. *)
Definition bothLocationInputs (s : State) : bool :=
  (negb (isNull (coords s)) && truthy (postalCode s))%bool.

(** ** The view *)

#[warnings="-register-all"]
Inductive Node : Type :=
| Text (s : jsstring)
| Element (tag : string) (props : list (string * jsstring))
    (children : list Node).

Definition className (c : string) : string * jsstring :=
  ("className"%string, lit c).

Definition boolean (b : bool) : jsstring := if b then `"true" else `"false".

(** [{cond && <element/>}] among the children of an element. *)
Definition when (cond : bool) (n : Node) : list Node :=
  if cond then [n] else [].

Definition neverSearchedMessage : jsstring :=
  `"Run the search to see the hottest hotspots from the past 7 days.".

Definition noHotspotsMessage : jsstring :=
  `"No hotspots met the 7-day activity threshold within this radius.".

Definition statPill (label : string) (value : number) : Node :=
  Element "div" [className "stat-pill"]
    [Text (lit label); Element "strong" [] [Text (toString value)]].

Definition distanceText (d : option number) : jsstring :=
  match d with
  | Some km => toString km ++ `" km"
  | None => `"unknown"
  end.

Definition introSection : Node :=
  Element "section" [className "card"]
    [Element "h1" [] [Text `"Birding Suggester"];
     Element "p" [className "muted"]
       [Text `"Discover high-potential eBird hotspots near you. Choose a spontaneous adventure or let the data surface the five most active locations from the past week."]].

Definition statusBanner (s : State) : list Node :=
  match status s with
  | Some msg =>
      when (truthy msg) (Element "div" [className "muted"] [Text msg])
  | None => []
  end.

Definition errorBanner (s : State) : list Node :=
  match error s with
  | Some msg =>
      when (truthy msg) (Element "div" [className "error"] [Text msg])
  | None => []
  end.

Definition formSection (s : State) : Node :=
  Element "section" [className "card"]
    ([Element "header" [className "options"]
        [Element "button"
           [className (if Mode_eqb (mode s) random then "active" else "")]
           [Text `"Surprise me"];
         Element "button"
           [className (if Mode_eqb (mode s) top then "active" else "")]
           [Text `"Top 5 active spots"]];
      Element "div" [className "form-grid"]
        [Element "div" [className "form-control"]
           [Element "label" [("htmlFor"%string, `"distance")]
              [Text `"Search radius (km)"];
            Element "input"
              [("id"%string, `"distance"); ("type"%string, `"number");
               ("min"%string, `"1"); ("max"%string, `"200");
               ("value"%string, toString (distanceKm s))] []];
         Element "div" [className "form-control"]
           [Element "label" [("htmlFor"%string, `"zip")]
              [Text `"ZIP code (optional)"];
            Element "input"
              [("id"%string, `"zip"); ("inputMode"%string, `"numeric");
               ("maxLength"%string, `"5");
               ("placeholder"%string, `"e.g. 80302");
               ("value"%string, postalCode s)] []]];
      Element "div" [className "form-actions"]
        [Element "button"
           [("type"%string, `"button"); className "secondary";
            ("disabled"%string, boolean (geolocating s))]
           [Text (if geolocating s then `"Locating..."
                  else `"Use my current location")];
         Element "button"
           [className "primary"; ("type"%string, `"button");
            ("disabled"%string, boolean (loading s))]
           [Text (if loading s then `"Searching..."
                  else match mode s with
                       | random => `"Find a random hotspot"
                       | top => `"Show top hotspots"
                       end)];
         Element "span" [className "muted"] [Text (locationLabel s)]]]
     ++ statusBanner s
     ++ errorBanner s).

Definition randomCard (h : Hotspot.t) : Node :=
  Element "section" [className "card"]
    [Element "h2" [] [Text `"Today's pick"];
     Element "div" [className "result-card"]
       [Element "h3" [] [Text (Hotspot.name h)];
        Element "p" [className "muted"]
          [Text (Hotspot.regionCode h); Text `", ";
           Text (Hotspot.countryCode h)];
        Element "a"
          [("href"%string, Hotspot.url h); ("target"%string, `"_blank");
           ("rel"%string, `"noreferrer")]
          [Text `"View on eBird (opens new tab)"];
        Element "p" [className "muted"]
          [Text `"Distance: "; Text (distanceText (Hotspot.distanceKm h))];
        Element "p" [className "muted"]
          [Text `"Coordinates: "; Text (toFixed (Hotspot.latitude h) 3);
           Text `", "; Text (toFixed (Hotspot.longitude h) 3)];
        Element "div" [className "stats"]
          [statPill "Checklists (7d)"
             (HotspotActivity.checklistCount (Hotspot.activity h));
           statPill "Observations (7d)"
             (HotspotActivity.observationCount (Hotspot.activity h));
           statPill "Activity score"
             (HotspotActivity.score (Hotspot.activity h))]]].

Definition randomSection (s : State) : list Node :=
  match randomHotspot s with
  | Some h => when (negb (loading s) && Mode_eqb (mode s) random) (randomCard h)
  | None => []
  end.

Definition topCard (spot : Hotspot.t) : Node :=
  Element "article"
    [("key"%string, Hotspot.locId spot); className "result-card"]
    [Element "h3" [] [Text (Hotspot.name spot)];
     Element "p" [className "muted"]
       [Text (Hotspot.regionCode spot); Text `", ";
        Text (Hotspot.countryCode spot)];
     Element "p" [className "muted"]
       [Text `"Distance: "; Text (distanceText (Hotspot.distanceKm spot))];
     Element "a"
       [("href"%string, Hotspot.url spot); ("target"%string, `"_blank");
        ("rel"%string, `"noreferrer")]
       [Text `"Explore on eBird (opens new tab)"];
     Element "div" [className "stats"]
       [statPill "Checklists"
          (HotspotActivity.checklistCount (Hotspot.activity spot));
        statPill "Observations"
          (HotspotActivity.observationCount (Hotspot.activity spot));
        statPill "Score" (HotspotActivity.score (Hotspot.activity spot))]].

(** What the top section shows under its heading. *)
Definition topResults (s : State) : Node :=
  if negb (hasFetched s) then
    Element "p" [className "muted"] [Text neverSearchedMessage]
  else if (length (topHotspots s) =? 0)%nat then
    Element "p" [className "muted"] [Text noHotspotsMessage]
  else
    Element "div" [className "results-grid"] (map topCard (topHotspots s)).

Definition topSection (s : State) : list Node :=
  when (negb (loading s) && Mode_eqb (mode s) top)
    (Element "section" [className "card"]
       [Element "h2" [] [Text `"Top 5 active hotspots"];
        Element "p" [className "muted"]
          [Text `"Ranked by checklists and observations submitted in the last 7 days (score = checklists x 2 + observations)."];
        topResults s]).

(** The tree the component returns. *)
Definition App (s : State) : Node :=
  Element "div" [className "app"]
    ([introSection; formSection s] ++ randomSection s ++ topSection s).

(** All the text nodes of a tree. *)
Fixpoint texts (n : Node) : list jsstring :=
  match n with
  | Text s => [s]
  | Element _ _ children => flat_map texts children
  end.

(** Whether some text node of [nodes] is exactly [msg]. *)
Definition shows (msg : jsstring) (nodes : list Node) : bool :=
  existsb (JsString.eqb msg) (flat_map texts nodes).

(** ** Predicates the statements below use *)

(** [x < y] on numbers, as the JavaScript operator decides it. *)
Definition ltb (x y : number) : bool :=
  match x, y with
  | NaN, _ | _, NaN => false
  | Infinity a, Infinity b => (a && negb b)%bool
  | Infinity a, Fin _ _ => a
  | Fin _ _, Infinity b => negb b
  | Fin m1 e1, Fin m2 e2 =>
      let e := Z.min e1 e2 in
      m1 * 10 ^ (e1 - e) <? m2 * 10 ^ (e2 - e)
  end.

(** The fields a submit or a change of mode resets. *)
Definition cleared (s : State) : State :=
  {| mode := mode s; distanceKm := distanceKm s; postalCode := postalCode s;
     coords := coords s; loading := loading s; geolocating := geolocating s;
     error := None; status := None;
     randomHotspot := None; topHotspots := [];
     hasFetched := false |}.

(** Whether the request of a submit ends in the [catch] block: the fetch
    is rejected, the body is not JSON or is [null], or the status is not
    a success. *)
Definition settlesToFailure (fetched : Completion Response.t) : bool :=
  match fetched with
  | Throw _ => true
  | Normal response =>
      match Response.json response with
      | Throw _ => true
      | Normal null => true
      | Normal (value _) => negb (Response.ok response)
      end
  end.

(** The value of a digit list read from the least significant end. *)
Fixpoint leValue (ds : jsstring) : Z :=
  match ds with
  | [] => 0
  | c :: r => Z.of_N (c - 48) + 10 * leValue r
  end.


(** The states the component can be in. *)
Inductive reachable (env : ImportMetaEnv) (navigator : Navigator)
  : State -> Prop :=
| reachable_mount : reachable env navigator (exec modeEffect initialState)
| reachable_step ev s :
    reachable env navigator s ->
    reachable env navigator (step env navigator ev s).

(** The characters the urlencoded serializer can produce. *)
Definition urlSafe (c : N) : bool :=
  (inRange 48 57 c || inRange 65 90 c || inRange 97 122 c
   || N.eqb c 42 || N.eqb c 45 || N.eqb c 46 || N.eqb c 95
   || N.eqb c 43 || N.eqb c 37)%bool.

(** A string of 16-bit code units. *)
Definition wellFormed (s : jsstring) : bool :=
  forallb (fun c => N.ltb c 65536) s.

(** The three values [status] is ever set to. *)
Definition knownStatus (o : option jsstring) : bool :=
  match o with
  | None => true
  | Some m =>
      (JsString.eqb m `"Requesting your location..."
       || JsString.eqb m `"Location locked in. Ready when you are!")%bool
  end.

(** * Properties *)

Ltac handler :=
  unfold exec, fetchHotspots, fetchHotspots_start, fetchHotspots_settle,
    requestCurrentLocation, requestCurrentLocation_success,
    requestCurrentLocation_error, modeEffect, mode_onClick,
    distance_onChange, zip_onChange, member, tryFinally, tryCatch, await,
    throw,
    bind, ret, setMode, setDistanceKm, setPostalCode, setCoords, setLoading,
    setGeolocating, setError, setStatus, setRandomHotspot, setTopHotspots,
    setHasFetched; cbn [fst snd].

(** ** Submit: validation *)

Lemma fetchHotspots_start_invalid env r s :
  isNull (coords r) = true ->
  (length (trim (postalCode r)) =? 5)%nat = false ->
  fetchHotspots_start env r s
  = (Normal None,
     exec (setError (Some validationMessage)) (cleared s)).
Proof.
  intros Hc Hl. handler. rewrite Hc, Hl. reflexivity.
Qed.

Lemma fetchHotspots_start_valid env r s :
  (isNull (coords r) && negb (length (trim (postalCode r)) =? 5)%nat)%bool
  = false ->
  fetchHotspots_start env r s
  = (Normal (Some (API_BASE_URL env ++ `"/" ++ endpoint r ++ `"?"
                     ++ buildQuery r)),
     exec (setLoading true) (cleared s)).
Proof.
  intros H. handler. rewrite H. reflexivity.
Qed.

(** C1. With no coordinates and a trimmed postal code whose length is not
    5, a submit requests no URL, whatever the network would answer, and
    leaves the validation message in [error]. *)
Theorem submit_invalid_no_request env (r s : State) :
  coords r = None ->
  length (trim (postalCode r)) <> 5%nat ->
  fst (fetchHotspots_start env r s) = Normal None
  /\ (forall network,
        fetchHotspots env r network s = (Normal tt, exec (fetchHotspots_start env r) s))
  /\ error (exec (fetchHotspots_start env r) s)
     = Some `"Enter a valid 5-digit ZIP code or allow location access.".
Proof.
  intros Hc Hl.
  assert (Hn : isNull (coords r) = true) by (rewrite Hc; reflexivity).
  apply Nat.eqb_neq in Hl.
  pose proof (fetchHotspots_start_invalid env r s Hn Hl) as E.
  repeat split.
  - rewrite E. reflexivity.
  - intros network. unfold fetchHotspots, bind, exec. rewrite E. reflexivity.
  - unfold exec at 1. rewrite E. reflexivity.
Qed.

Lemma submit_invalid_no_request_witness :
  fst (fetchHotspots_start {| VITE_API_BASE_URL := None |}
         (exec (zip_onChange `"8030") initialState)
         (exec (zip_onChange `"8030") initialState))
  = Normal None.
Proof.
  apply (submit_invalid_no_request {| VITE_API_BASE_URL := None |}
           (exec (zip_onChange `"8030") initialState)
           (exec (zip_onChange `"8030") initialState)).
  - reflexivity.
  - vm_compute. lia.
Defined.

(** ** Submit: the request *)

Lemma buildQueryParams_coords r c :
  coords r = Some c ->
  buildQueryParams r
  = [(`"distanceKm", toString (distanceKm r));
     (`"lat", toString (lat c)); (`"lng", toString (lng c))].
Proof.
  intros H. unfold buildQueryParams. rewrite H. reflexivity.
Qed.

Lemma length_5_truthy (t : jsstring) : length t = 5%nat -> truthy t = true.
Proof.
  destruct t; [discriminate | reflexivity].
Qed.

Lemma buildQueryParams_postalCode r :
  coords r = None ->
  length (trim (postalCode r)) = 5%nat ->
  buildQueryParams r
  = [(`"distanceKm", toString (distanceKm r));
     (`"postalCode", trim (postalCode r))].
Proof.
  intros H L. unfold buildQueryParams. rewrite H, (length_5_truthy _ L).
  reflexivity.
Qed.

(** C2. A submit that passes validation requests
    [base/hotspots/random?query] in random mode and
    [base/hotspots/top?query] in top mode, where [query] serializes
    [distanceKm], [lat] and [lng] when there are coordinates (whatever the
    postal code is) and [distanceKm] and [postalCode] when there are
    none. *)
Theorem submit_valid_request env (r s : State) :
  coords r <> None \/ length (trim (postalCode r)) = 5%nat ->
  let params :=
    match coords r with
    | Some c =>
        [(`"distanceKm", toString (distanceKm r));
         (`"lat", toString (lat c)); (`"lng", toString (lng c))]
    | None =>
        [(`"distanceKm", toString (distanceKm r));
         (`"postalCode", trim (postalCode r))]
    end in
  let path :=
    match mode r with
    | random => `"hotspots/random"
    | top => `"hotspots/top"
    end in
  buildQueryParams r = params
  /\ fst (fetchHotspots_start env r s)
     = Normal (Some (API_BASE_URL env ++ `"/" ++ path ++ `"?"
                       ++ URLSearchParams.toString params)).
Proof.
  intros H params path.
  assert (Hp : buildQueryParams r = params).
  { subst params. destruct (coords r) as [c|] eqn:Ec.
    - now apply buildQueryParams_coords.
    - destruct H as [H|H]; [congruence|].
      now apply buildQueryParams_postalCode. }
  split; [exact Hp|].
  rewrite fetchHotspots_start_valid.
  - unfold buildQuery. rewrite Hp. reflexivity.
  - destruct (coords r); [reflexivity|].
    destruct H as [H|H]; [congruence|].
    rewrite H. reflexivity.
Qed.

Lemma submit_valid_request_witness :
  fst (fetchHotspots_start {| VITE_API_BASE_URL := None |}
         (exec (zip_onChange `"80302") initialState)
         (exec (zip_onChange `"80302") initialState))
  = Normal (Some `"http://localhost:4000/api/hotspots/random?distanceKm=25&postalCode=80302").
Proof.
  apply (submit_valid_request {| VITE_API_BASE_URL := None |}
           (exec (zip_onChange `"80302") initialState)
           (exec (zip_onChange `"80302") initialState)).
  right. reflexivity.
Defined.

(** ** Submit: the response *)

Lemma fetchHotspots_settle_error_status r s response (payload : Payload.t) :
  Response.json response = Normal (value payload) ->
  Response.ok response = false ->
  fetchHotspots_settle r (Normal response) s
  = (Normal tt,
     exec (setLoading false)
       (exec (setError (Some (Payload.message payload
                                ?? `"Unable to fetch hotspots."))) s)).
Proof.
  intros Hj Hok. handler. rewrite Hj, Hok. reflexivity.
Qed.

(** C3, as the specification states it, fails: the body is read before
    the status is looked at, so an error status whose body is not JSON
    (the HTML page of a gateway, say) leaves the message of the parser in
    [error], and one whose body is [null] the text of a [TypeError];
    neither is a [message] field or "Unable to fetch hotspots.". *)
Lemma error_status_counterexample :
  let gateway := {|
    Response.status := 502;
    Response.json := Throw (ErrorObject `"Unexpected token < in JSON at position 0") |} in
  let empty := {| Response.status := 500; Response.json := Normal null |} in
  let s1 := exec (fetchHotspots_settle initialState (Normal gateway))
              initialState in
  let s2 := exec (fetchHotspots_settle initialState (Normal empty))
              initialState in
  Response.ok gateway = false
  /\ error s1 = Some `"Unexpected token < in JSON at position 0"
  /\ error s1 <> Some `"Unable to fetch hotspots."
  /\ Response.ok empty = false
  /\ error s2 = Some `"Cannot read properties of null (reading 'message')"
  /\ error s2 <> Some `"Unable to fetch hotspots.".
Proof.
  repeat split; discriminate.
Qed.

(** C3, amended. A response with a non-success status whose body is JSON
    other than [null] leaves in [error] the [message] field of its
    payload, and "Unable to fetch hotspots." when the payload has none;
    for status 400 and the payload [{message: "Invalid ZIP code"}] the
    error banner reads exactly "Invalid ZIP code".  When the body is not
    JSON, [error] is the message of the error [response.json()] threw. *)
Theorem error_status_message :
  (forall r s response (payload : Payload.t),
     Response.json response = Normal (value payload) ->
     Response.ok response = false ->
     error (exec (fetchHotspots_settle r (Normal response)) s)
     = Some match Payload.message payload with
            | Some m => m
            | None => `"Unable to fetch hotspots."
            end)
  /\ (forall r s,
        let response := {|
          Response.status := 400;
          Response.json := Normal (value {|
            Payload.message := Some `"Invalid ZIP code";
            Payload.hotspot := None;
            Payload.hotspots := None |}) |} in
        let s' := exec (fetchHotspots_settle r (Normal response)) s in
        error s' = Some `"Invalid ZIP code"
        /\ errorBanner s'
           = [Element "div" [className "error"] [Text `"Invalid ZIP code"]])
  /\ (forall r s response msg,
        Response.json response = Throw (ErrorObject msg) ->
        Response.ok response = false ->
        error (exec (fetchHotspots_settle r (Normal response)) s) = Some msg).
Proof.
  split; [|split].
  - intros r s response payload Hj Hok. unfold exec at 1.
    rewrite (fetchHotspots_settle_error_status _ _ _ _ Hj Hok).
    destruct (Payload.message payload); reflexivity.
  - intros r s response s'.
    assert (E : error s' = Some `"Invalid ZIP code").
    { subst s'. unfold exec at 1.
      rewrite (fetchHotspots_settle_error_status r s response _ eq_refl eq_refl).
      reflexivity. }
    assert (B : errorBanner s'
                = [Element "div" [className "error"] [Text `"Invalid ZIP code"]]).
    { unfold errorBanner. rewrite E. reflexivity. }
    split; [exact E | exact B].
  - intros r s response msg Hj Hok. handler. rewrite Hj. reflexivity.
Qed.

Lemma error_status_message_witness :
  error (exec (fetchHotspots_settle initialState
                 (Normal {| Response.status := 404;
                            Response.json := Normal (value {|
                              Payload.message := None;
                              Payload.hotspot := None;
                              Payload.hotspots := None |}) |}))
           initialState)
  = Some `"Unable to fetch hotspots.".
Proof.
  apply (proj1 error_status_message initialState initialState
           {| Response.status := 404;
              Response.json := Normal (value {|
                Payload.message := None;
                Payload.hotspot := None;
                Payload.hotspots := None |}) |}
           {| Payload.message := None;
              Payload.hotspot := None;
              Payload.hotspots := None |}).
  - reflexivity.
  - reflexivity.
Defined.

(** ** Mode switch *)

(** C7. A click that changes the mode resets [randomHotspot],
    [topHotspots], [status], [error] and [hasFetched], and leaves
    [distanceKm], [postalCode] and [coords] (and the two in-flight flags)
    as they were. *)
Theorem mode_change_resets (m : Mode) (s : State) :
  m <> mode s ->
  let s' := exec (mode_onClick m s) s in
  mode s' = m
  /\ randomHotspot s' = None
  /\ topHotspots s' = []
  /\ status s' = None
  /\ error s' = None
  /\ hasFetched s' = false
  /\ distanceKm s' = distanceKm s
  /\ postalCode s' = postalCode s
  /\ coords s' = coords s
  /\ loading s' = loading s
  /\ geolocating s' = geolocating s.
Proof.
  intros Hm s'. subst s'. handler.
  destruct m, (mode s) eqn:E; try congruence; cbn; repeat split; reflexivity.
Qed.

Lemma mode_change_resets_witness :
  let s := exec (fetchHotspots_settle initialState (Throw NotAnError))
             (exec (zip_onChange `"80302") initialState) in
  error s = Some `"Unexpected error."
  /\ error (exec (mode_onClick top s) s) = None
  /\ postalCode (exec (mode_onClick top s) s) = `"80302".
Proof.
  intros s. split; [reflexivity|].
  split;
    apply (mode_change_resets top s); discriminate.
Defined.

(** ** Top mode: the two empty states *)

Lemma fetchHotspots_settle_top_success r s response (payload : Payload.t) :
  mode r = top ->
  Response.json response = Normal (value payload) ->
  Response.ok response = true ->
  fetchHotspots_settle r (Normal response) s
  = (Normal tt,
     exec (setLoading false)
       (exec (setHasFetched true)
          (exec (setTopHotspots (Payload.hotspots payload ?? [])) s))).
Proof.
  intros Hm Hj Hok. handler. rewrite Hj, Hok, Hm. reflexivity.
Qed.

(** C8. In top mode, once a successful response whose payload has an
    empty or no [hotspots] list has been handled, [hasFetched] is true and
    the top section shows the "No hotspots met the 7-day activity
    threshold" text and not the "Run the search" one; while [hasFetched]
    is false the top section shows the "Run the search" text and not the
    other. *)
Theorem top_empty_states :
  (forall r s response (payload : Payload.t),
     mode r = top -> mode s = top ->
     Response.ok response = true ->
     Response.json response = Normal (value payload) ->
     Payload.hotspots payload = None \/ Payload.hotspots payload = Some [] ->
     let s' := exec (fetchHotspots_settle r (Normal response)) s in
     hasFetched s' = true
     /\ topResults s'
        = Element "p" [className "muted"]
            [Text `"No hotspots met the 7-day activity threshold within this radius."]
     /\ shows noHotspotsMessage (topSection s') = true
     /\ shows neverSearchedMessage (topSection s') = false)
  /\ (forall s,
        mode s = top -> loading s = false -> hasFetched s = false ->
        topResults s
        = Element "p" [className "muted"]
            [Text `"Run the search to see the hottest hotspots from the past 7 days."]
        /\ shows neverSearchedMessage (topSection s) = true
        /\ shows noHotspotsMessage (topSection s) = false).
Proof.
  split.
  - intros r s response payload Hr Hs Hok Hj Hh s'.
    assert (E : s' = exec (setLoading false)
                       (exec (setHasFetched true)
                          (exec (setTopHotspots []) s))).
    { subst s'. unfold exec at 1.
      rewrite (fetchHotspots_settle_top_success _ _ _ _ Hr Hj Hok).
      destruct Hh as [-> | ->]; reflexivity. }
    rewrite E. unfold topSection, topResults, exec. cbn.
    rewrite Hs. repeat split; reflexivity.
  - intros s Hm Hl Hf. unfold topSection, topResults.
    rewrite Hm, Hl, Hf. repeat split; reflexivity.
Qed.

Lemma top_empty_states_witness :
  let s := exec (mode_onClick top initialState) initialState in
  shows neverSearchedMessage (topSection s) = true
  /\ shows noHotspotsMessage
       (topSection
          (exec (fetchHotspots_settle s
                   (Normal {| Response.status := 200;
                              Response.json := Normal (value {|
                                Payload.message := None;
                                Payload.hotspot := None;
                                Payload.hotspots := Some [] |}) |}))
             s))
     = true.
Proof.
  intros s. split.
  - apply (proj2 top_empty_states s); reflexivity.
  - apply (proj1 top_empty_states s s
             {| Response.status := 200;
                Response.json := Normal (value {|
                  Payload.message := None;
                  Payload.hotspot := None;
                  Payload.hotspots := Some [] |}) |}
             {| Payload.message := None;
                Payload.hotspot := None;
                Payload.hotspots := Some [] |});
      try reflexivity.
    right. reflexivity.
Defined.

(** ** Submit: what every call discards *)

Lemma fetchHotspots_start_cleared env r s :
  fetchHotspots_start env r s
  = if (isNull (coords r) && negb (length (trim (postalCode r)) =? 5)%nat)%bool
    then (Normal None, exec (setError (Some validationMessage)) (cleared s))
    else (Normal (Some (API_BASE_URL env ++ `"/" ++ endpoint r ++ `"?"
                          ++ buildQuery r)),
          exec (setLoading true) (cleared s)).
Proof.
  handler.
  destruct (isNull (coords r) && negb (length (trim (postalCode r)) =? 5)%nat)%bool;
    reflexivity.
Qed.

Lemma fetchHotspots_settle_failure r s fetched :
  settlesToFailure fetched = true ->
  exists msg,
    fetchHotspots_settle r fetched s
    = (Normal tt, exec (setLoading false) (exec (setError (Some msg)) s)).
Proof.
  unfold settlesToFailure. intros H. handler.
  destruct fetched as [response|t].
  - destruct (Response.json response) as [[|fields]|t].
    + destruct (negb (Response.ok response)), (mode r); cbn; eauto.
    + apply negb_true_iff in H. rewrite H. cbn. eauto.
    + destruct t; eauto.
  - destruct t; eauto.
Qed.

(** C10. Every submit first clears [error], [status], [randomHotspot] and
    [topHotspots] and sets [hasFetched] to false: what follows acts on the
    cleared state.  So after a submit that fails validation, and after one
    whose request is rejected, has a body that is not JSON or has an error
    status, nothing is left of the results and status of an earlier
    search. *)
Theorem submit_discards_previous env (r s : State) :
  let invalid :=
    (isNull (coords r) && negb (length (trim (postalCode r)) =? 5)%nat)%bool in
  let s1 := exec (fetchHotspots_start env r) s in
  s1 = (if invalid
        then exec (setError (Some validationMessage)) (cleared s)
        else exec (setLoading true) (cleared s))
  /\ (status s1 = None /\ randomHotspot s1 = None /\ topHotspots s1 = []
      /\ hasFetched s1 = false)
  /\ (invalid = false -> error s1 = None)
  /\ (forall fetched,
        settlesToFailure fetched = true ->
        let s2 := exec (fetchHotspots_settle r fetched) s1 in
        status s2 = None /\ randomHotspot s2 = None /\ topHotspots s2 = []
        /\ hasFetched s2 = false /\ error s2 <> None).
Proof.
  intros invalid s1.
  assert (E : s1 = (if invalid
                    then exec (setError (Some validationMessage)) (cleared s)
                    else exec (setLoading true) (cleared s))).
  { subst s1 invalid. unfold exec at 1. rewrite fetchHotspots_start_cleared.
    destruct (isNull (coords r) && negb (length (trim (postalCode r)) =? 5)%nat)%bool;
      reflexivity. }
  assert (F : status s1 = None /\ randomHotspot s1 = None
              /\ topHotspots s1 = [] /\ hasFetched s1 = false).
  { rewrite E. destruct invalid; repeat split; reflexivity. }
  split; [exact E|]. split; [exact F|]. split.
  - intros Hi. rewrite E, Hi. reflexivity.
  - intros fetched Hf s2.
    destruct (fetchHotspots_settle_failure r s1 fetched Hf) as [msg Hs].
    assert (X : s2 = exec (setLoading false) (exec (setError (Some msg)) s1)).
    { subst s2. unfold exec at 1. rewrite Hs. reflexivity. }
    rewrite X. cbn.
    destruct F as (F1 & F2 & F3 & F4).
    repeat split; try assumption. discriminate.
Qed.

Lemma submit_discards_previous_witness :
  let found := exec (fetchHotspots_settle initialState
                       (Normal {| Response.status := 200;
                                  Response.json := Normal (value {|
                                    Payload.message := None;
                                    Payload.hotspot := None;
                                    Payload.hotspots := None |}) |}))
                 (exec (zip_onChange `"80302") initialState) in
  hasFetched found = true
  /\ hasFetched
       (exec (fetchHotspots_settle found (Throw (ErrorObject `"Failed to fetch")))
          (exec (fetchHotspots_start {| VITE_API_BASE_URL := None |} found)
             found))
     = false.
Proof.
  intros found. split; [reflexivity|].
  apply (submit_discards_previous {| VITE_API_BASE_URL := None |} found found).
  reflexivity.
Defined.

(** ** The two location inputs *)

Lemma bothLocationInputs_step env navigator ev s :
  bothLocationInputs s = false ->
  bothLocationInputs (step env navigator ev s) = false.
Proof.
  intros H. destruct ev; cbn [step].
  - unfold mode_onClick. handler.
    destruct (Mode_eqb m (mode s)); exact H.
  - exact H.
  - handler. destruct (removeNonDigits eventTargetValue); [|reflexivity].
    cbn. unfold bothLocationInputs. cbn. apply andb_false_r.
  - destruct (geolocating s); [exact H|].
    handler. destruct (negb (geolocation navigator)); exact H.
  - reflexivity.
  - exact H.
  - destruct (loading s); [exact H|].
    unfold exec. rewrite fetchHotspots_start_cleared.
    destruct (isNull (coords s) && negb (length (trim (postalCode s)) =? 5)%nat)%bool;
      exact H.
  - handler. destruct fetched as [response|t]; [|destruct t; exact H].
    destruct (Response.json response) as [[|fields]|t]; [| |destruct t; exact H];
      destruct (negb (Response.ok response)); try exact H;
      destruct (mode r); exact H.
Qed.

Lemma reachable_one_location_input env navigator s :
  reachable env navigator s -> bothLocationInputs s = false.
Proof.
  induction 1 as [|ev s _ IH].
  - reflexivity.
  - now apply bothLocationInputs_step.
Qed.

(** C6. Coordinates received from the browser clear the postal code, and
    a postal code input that stores a non-empty value sets [coords] to
    null; after each of the two transitions, and hence in every state the
    component reaches, [coords] and a non-empty [postalCode] are never
    both there. *)
Theorem location_inputs_exclusive :
  (forall position s,
     let s' := exec (requestCurrentLocation_success position) s in
     coords s' <> None /\ postalCode s' = []
     /\ bothLocationInputs s' = false)
  /\ (forall eventTargetValue s,
        let s' := exec (zip_onChange eventTargetValue) s in
        (postalCode s' <> [] -> coords s' = None)
        /\ bothLocationInputs s' = false)
  /\ (forall env navigator s,
        reachable env navigator s -> bothLocationInputs s = false).
Proof.
  split; [|split].
  - intros position s s'. subst s'. handler. cbn.
    repeat split. discriminate.
  - intros v s s'. subst s'. handler.
    destruct (removeNonDigits v) eqn:E; cbn.
    + split; [congruence|]. unfold bothLocationInputs. cbn.
      apply andb_false_r.
    + split; reflexivity.
  - apply reachable_one_location_input.
Qed.

Lemma location_inputs_exclusive_witness :
  let located :=
    exec (requestCurrentLocation_success
            {| Geolocation.coords :=
                 {| Geolocation.latitude := Fin 40015625 (-6);
                    Geolocation.longitude := Fin (-1052705078125) (-10) |} |})
      initialState in
  coords located <> None
  /\ coords (exec (zip_onChange `"8") located) = None.
Proof.
  intros located. split.
  - apply (proj1 location_inputs_exclusive).
  - apply (proj1 (proj2 location_inputs_exclusive) `"8" located).
    discriminate.
Defined.

(** ** Decimal digits: printing and reading back *)

Lemma isDigit_digitChar d : 0 <= d < 10 -> isDigit (digitChar d) = true.
Proof.
  intros H. unfold isDigit, inRange, digitChar.
  apply andb_true_iff. split; apply N.leb_le; lia.
Qed.

Lemma digitChar_value d : 0 <= d -> Z.of_N (digitChar d - 48) = d.
Proof.
  intros H. unfold digitChar. lia.
Qed.

Lemma revDigits_allDigits fuel n : allDigits (revDigits fuel n) = true.
Proof.
  revert n. induction fuel as [|k IH]; intros n; [reflexivity|].
  cbn [revDigits allDigits forallb].
  rewrite isDigit_digitChar by (apply Z.mod_pos_bound; lia).
  destruct (n <? 10); [reflexivity | apply IH].
Qed.

Lemma allDigits_app a b :
  allDigits (a ++ b) = (allDigits a && allDigits b)%bool.
Proof. apply forallb_app. Qed.

Lemma allDigits_rev a : allDigits (rev a) = allDigits a.
Proof.
  induction a as [|c a IH]; [reflexivity|].
  cbn [rev]. rewrite allDigits_app, IH. cbn. 
  rewrite andb_true_r. apply andb_comm.
Qed.

Lemma decimalDigits_allDigits n : allDigits (decimalDigits n) = true.
Proof.
  unfold decimalDigits. rewrite allDigits_rev. apply revDigits_allDigits.
Qed.

Lemma decimalDigits_nonempty n : decimalDigits n <> [].
Proof.
  unfold decimalDigits. cbn [revDigits rev].
  intros H. apply app_eq_nil in H. destruct H as [_ H]. discriminate.
Qed.

Lemma digitsValue_app acc a b :
  digitsValue acc (a ++ b) = digitsValue (digitsValue acc a) b.
Proof.
  revert acc. induction a as [|c a IH]; intros acc; [reflexivity|].
  cbn. apply IH.
Qed.

Lemma digitsValue_rev ds : digitsValue 0 (rev ds) = leValue ds.
Proof.
  induction ds as [|c r IH]; [reflexivity|].
  cbn [rev leValue]. rewrite digitsValue_app, IH. cbn [digitsValue]. lia.
Qed.

Lemma leValue_revDigits fuel n :
  0 <= n < 10 ^ Z.of_nat fuel -> leValue (revDigits fuel n) = n.
Proof.
  revert n. induction fuel as [|k IH]; intros n H.
  - cbn in H. assert (n = 0) by lia. subst. reflexivity.
  - cbn [revDigits leValue].
    rewrite digitChar_value by (apply Z.mod_pos_bound; lia).
    destruct (n <? 10) eqn:E.
    + apply Z.ltb_lt in E. cbn. rewrite Z.mod_small by lia. lia.
    + rewrite IH.
      * pose proof (Z.div_mod n 10). lia.
      * rewrite Nat2Z.inj_succ, Z.pow_succ_r in H by lia.
        split; [apply Z.div_pos; lia|].
        apply Z.div_lt_upper_bound; lia.
Qed.

Lemma lt_pow10_log2 n : 0 <= n -> n < 10 ^ Z.of_nat (S (Z.to_nat (Z.log2 n))).
Proof.
  intros H. rewrite Nat2Z.inj_succ, Z2Nat.id by apply Z.log2_nonneg.
  destruct (Z.eq_dec n 0) as [->|Hn]; [reflexivity|].
  pose proof (Z.log2_spec n ltac:(lia)) as [_ L].
  eapply Z.lt_le_trans; [exact L|].
  apply Z.pow_le_mono_l. split; [lia|lia].
Qed.

Lemma digitsValue_decimalDigits n :
  0 <= n -> digitsValue 0 (decimalDigits n) = n.
Proof.
  intros H. unfold decimalDigits.
  rewrite digitsValue_rev. apply leValue_revDigits.
  split; [exact H | now apply lt_pow10_log2].
Qed.

Lemma digitsValue_zeros k ds :
  digitsValue 0 (zeros k ++ ds) = digitsValue 0 ds.
Proof.
  induction k as [|k IH]; [reflexivity|]. cbn. exact IH.
Qed.

(** ** Reading a fixed-point literal *)

Ltac bool_N :=
  unfold isDigit, isWhiteSpace, inRange in *;
  repeat rewrite ?orb_false_iff, ?andb_false_iff, ?andb_true_iff,
    ?orb_true_iff, ?N.leb_le, ?N.leb_gt, ?N.eqb_neq, ?N.eqb_eq in *;
  lia.

Lemma isDigit_not_whiteSpace c : isDigit c = true -> isWhiteSpace c = false.
Proof. intros H. bool_N. Qed.


Lemma span_digits_all a : allDigits a = true -> span isDigit a = (a, []).
Proof.
  intros Ha. induction a as [|x a IH]; cbn; [reflexivity|].
  cbn in Ha. apply andb_true_iff in Ha. destruct Ha as [Hx Ha].
  rewrite Hx, (IH Ha). reflexivity.
Qed.

Lemma dropWhile_head p c r : p c = false -> dropWhile p (c :: r) = c :: r.
Proof. intros H. cbn. rewrite H. reflexivity. Qed.

Lemma trim_id s :
  forallb (fun c => negb (isWhiteSpace c)) s = true -> trim s = s.
Proof.
  intros H. unfold trim, trimEnd, trimStart.
  assert (forall l, forallb (fun c => negb (isWhiteSpace c)) l = true ->
                    dropWhile isWhiteSpace l = l) as D.
  { intros [|c r] Hl; [reflexivity|]. cbn in Hl.
    apply andb_true_iff in Hl. destruct Hl as [Hc _].
    apply dropWhile_head. now apply negb_true_iff. }
  rewrite (D s H), D, rev_involutive; [reflexivity|].
  apply forallb_forall. intros c Hc. apply in_rev in Hc.
  rewrite forallb_forall in H. now apply H.
Qed.


Lemma nonDecimalLiteral_plain z p rest :
  (isDigit p || N.eqb p 46)%bool = true ->
  nonDecimalLiteral (z :: p :: rest) = None.
Proof.
  intros H. destruct rest as [|d ds]; cbn; [reflexivity|].
  destruct (N.eqb z 48); [|reflexivity].
  assert ((N.eqb p 120 || N.eqb p 88)%bool = false) as -> by bool_N.
  assert ((N.eqb p 111 || N.eqb p 79)%bool = false) as -> by bool_N.
  assert ((N.eqb p 98 || N.eqb p 66)%bool = false) as -> by bool_N.
  reflexivity.
Qed.



(** ** [Number(x.toFixed(f))] *)

Lemma roundScaled_nonneg a k : 0 <= a -> 0 <= roundScaled a k.
Proof.
  intros H. unfold roundScaled. destruct (0 <=? k) eqn:E.
  - apply Z.leb_le in E. apply Z.mul_nonneg_nonneg; [exact H|].
    apply Z.pow_nonneg. lia.
  - apply Z.leb_gt in E.
    assert (0 < 10 ^ (- k)) by (apply Z.pow_pos_nonneg; lia).
    apply Z.div_pos; lia.
Qed.

Lemma allDigits_zeros k : allDigits (zeros k) = true.
Proof. induction k as [|k IH]; [reflexivity | exact IH]. Qed.

Lemma length_zeros k : length (zeros k) = k.
Proof. apply repeat_length. Qed.



(** ** Geolocation *)




(** Latitude 40.00145 and longitude -105.27055, as binary64 values, are
    stored as 40.0014 and -105.2706. *)
Example geolocation_rounding_example :
  coords (exec (requestCurrentLocation_success
                  {| Geolocation.coords := {|
                       Geolocation.latitude := Number `"40.00145";
                       Geolocation.longitude := Number `"-105.27055" |} |})
            initialState)
  = Some {| lat := Number `"40.0014"; lng := Number `"-105.2706" |}.
Proof. vm_compute. reflexivity. Qed.

(** ** Whole numbers in binary64 *)

Lemma stripZeros_spec fuel m0 z e :
  m0 mod 10 <> 0 -> (z <= fuel)%nat ->
  stripZeros fuel (m0 * 10 ^ Z.of_nat z) e = (m0, e + Z.of_nat z).
Proof.
  intros Hm. revert z e. induction fuel as [|fuel IH]; intros z e Hz.
  - assert (z = 0%nat) by lia. subst. cbn [stripZeros Z.of_nat].
    rewrite Z.pow_0_r, Z.mul_1_r, Z.add_0_r. reflexivity.
  - destruct z as [|z].
    + cbn [stripZeros Z.of_nat]. rewrite Z.pow_0_r, Z.mul_1_r, Z.add_0_r.
      apply Z.eqb_neq in Hm. rewrite Hm. reflexivity.
    + cbn [stripZeros]. rewrite Nat2Z.inj_succ, Z.pow_succ_r by lia.
      replace (m0 * (10 * 10 ^ Z.of_nat z)) with (m0 * 10 ^ Z.of_nat z * 10)
        by ring.
      rewrite Z.mod_mul, Z.eqb_refl, Z.div_mul by lia.
      rewrite IH by lia. f_equal. lia.
Qed.

Lemma normalize_spec m0 z e :
  m0 mod 10 <> 0 -> 0 <= z -> normalize (m0 * 10 ^ z) e = Fin m0 (e + z).
Proof.
  intros Hm Hz. rewrite <- (Z2Nat.id z Hz). generalize (Z.to_nat z) as k.
  intros k. unfold normalize.
  assert (H0 : m0 <> 0) by (intros ->; apply Hm; reflexivity).
  assert (Hp : 0 < 10 ^ Z.of_nat k) by (apply Z.pow_pos_nonneg; lia).
  assert ((m0 * 10 ^ Z.of_nat k =? 0) = false) as -> by (apply Z.eqb_neq; nia).
  rewrite stripZeros_spec; [reflexivity | exact Hm |].
  apply Nat2Z.inj_le. rewrite Z2Nat.id by apply Z.log2_nonneg.
  rewrite <- (Z.log2_pow2 (Z.of_nat k)) at 1 by lia.
  apply Z.log2_le_mono.
  assert (2 ^ Z.of_nat k <= 10 ^ Z.of_nat k) by (apply Z.pow_le_mono_l; lia).
  assert (1 <= Z.abs m0) by lia.
  rewrite Z.abs_mul, (Z.abs_eq (10 ^ Z.of_nat k)) by lia.
  nia.
Qed.

Lemma decompose_aux k : forall n,
  Z.abs n < Z.of_nat k -> n <> 0 ->
  exists m0 z, 0 <= z /\ m0 mod 10 <> 0 /\ n = m0 * 10 ^ z.
Proof.
  induction k as [|k IH]; intros n Hk Hn; [lia|].
  destruct (Z.eq_dec (n mod 10) 0) as [E|E].
  - pose proof (Z.div_mod n 10 ltac:(lia)) as D. rewrite E, Z.add_0_r in D.
    destruct (IH (n / 10)) as (m0 & z & Hz & Hm & Hq); [lia | lia|].
    exists m0, (z + 1). repeat split; [lia | exact Hm|].
    rewrite Z.pow_add_r, Z.pow_1_r by lia. lia.
  - exists n, 0. repeat split; [lia | exact E | ring].
Qed.

Lemma decompose n :
  n <> 0 -> exists m0 z, 0 <= z /\ m0 mod 10 <> 0 /\ n = m0 * 10 ^ z.
Proof.
  intros H. apply (decompose_aux (Z.to_nat (Z.abs n + 1)) n); [lia | exact H].
Qed.

(** A whole number below 2^53 is a binary64 value. *)
Lemma toBinary64_integer n :
  0 < n < 2 ^ 53 -> toBinary64 n 0 = normalize n 0.
Proof.
  intros H. unfold toBinary64, roundBinary64.
  change (0 <=? 0) with true. cbv iota.
  rewrite Z.abs_eq, Z.pow_0_r, Z.mul_1_r by lia.
  assert ((n =? 0) = false) as -> by (apply Z.eqb_neq; lia).
  assert ((n <? 0) = false) as -> by (apply Z.ltb_ge; lia).
  pose proof (Z.log2_spec n ltac:(lia)) as [L1 L2].
  pose proof (Z.log2_nonneg n) as L0.
  assert (L3 : Z.log2 n < 53) by (apply Z.log2_lt_pow2; lia).
  assert (B : binaryExponent n 1 = Z.log2 n).
  { unfold binaryExponent. change (Z.log2 1) with 0. rewrite Z.sub_0_r.
    assert ((0 <=? Z.log2 n) = true) as -> by (apply Z.leb_le; lia).
    assert ((1 * 2 ^ Z.log2 n <=? n) = true) as -> by (apply Z.leb_le; lia).
    reflexivity. }
  rewrite B. rewrite Z.max_l by lia.
  assert (R : forall v, roundHalfEven v 1 = v).
  { intros v. unfold roundHalfEven. rewrite Z.mod_1_r, Z.div_1_r. reflexivity. }
  destruct (0 <=? Z.log2 n - 52) eqn:E.
  - apply Z.leb_le in E. assert (Z.log2 n - 52 = 0) as -> by lia.
    rewrite Z.pow_0_r, !Z.mul_1_r, R.
    assert ((2 ^ 1024 <=? n) = false) as ->.
    { apply Z.leb_gt. eapply Z.lt_trans; [apply H|]. reflexivity. }
    reflexivity.
  - apply Z.leb_gt in E. cbn [andb]. rewrite R.
    set (j := - (Z.log2 n - 52)). assert (Hj : 0 < j) by (subst j; lia).
    replace (Z.log2 n - 52) with (- j) by (subst j; lia).
    replace (n * 2 ^ j * 5 ^ j) with (n * 10 ^ j)
      by (change 10 with (2 * 5); rewrite Z.pow_mul_l; ring).
    destruct (decompose n ltac:(lia)) as (m0 & z & Hz & Hm & ->).
    rewrite <- Z.mul_assoc, <- Z.pow_add_r by lia.
    rewrite !normalize_spec by (try exact Hm; lia).
    f_equal. lia.
Qed.

(** What a whole number below 2^53 is stored as denotes that number. *)
Lemma toBinary64_integer_value n :
  0 <= n < 2 ^ 53 ->
  exists m e, toBinary64 n 0 = Fin m e /\ 0 <= e /\ m * 10 ^ e = n.
Proof.
  intros H. destruct (Z.eq_dec n 0) as [->|Hn].
  - exists 0, 0. repeat split; reflexivity.
  - rewrite toBinary64_integer by lia.
    destruct (decompose n Hn) as (m0 & z & Hz & Hm & ->).
    exists m0, z. rewrite normalize_spec by assumption.
    split; [f_equal; lia | split; [exact Hz | reflexivity]].
Qed.

(** ** The radius input *)

(** A typed non-negative integer converts to the binary64 value nearest
    to it. *)
Lemma Number_decimalDigits n :
  0 <= n -> Number (decimalDigits n) = toBinary64 n 0.
Proof.
  intros Hn. unfold Number.
  pose proof (decimalDigits_allDigits n) as Hd.
  rewrite trim_id.
  2:{ apply forallb_forall. intros c Hc. unfold allDigits in Hd.
      rewrite forallb_forall in Hd.
      now rewrite (isDigit_not_whiteSpace c (Hd c Hc)). }
  destruct (decimalDigits n) as [|c r] eqn:E.
  { now destruct (decimalDigits_nonempty n). }
  assert (Hc : isDigit c = true).
  { cbn in Hd. now apply andb_true_iff in Hd. }
  assert (nonDecimalLiteral (c :: r) = None) as ->.
  { destruct r as [|p r']; [reflexivity|].
    apply nonDecimalLiteral_plain. cbn in Hd.
    apply andb_true_iff in Hd. destruct Hd as [_ Hd].
    apply andb_true_iff in Hd. destruct Hd as [-> _]. reflexivity. }
  assert (N.eqb c 43 = false) as -> by bool_N.
  assert (N.eqb c 45 = false) as -> by bool_N.
  unfold strUnsignedDecimalLiteral.
  assert (JsString.eqb (c :: r) `"Infinity" = false) as ->.
  { cbn. apply andb_false_iff. left. bool_N. }
  rewrite (span_digits_all _ Hd). cbn [truthy orb exponentPart length].
  rewrite app_nil_r, <- E, (digitsValue_decimalDigits n Hn). reflexivity.
Qed.

(** C4, as the specification states it, fails: the entry "0" is stored as
    0, which is below 1. *)
Lemma radius_clamp_counterexample :
  let s' := exec (distance_onChange `"0") initialState in
  distanceKm s' = Fin 0 0 /\ ltb (distanceKm s') (Fin 1 0) = true.
Proof. split; reflexivity. Qed.

(** C4, amended. An entry that converts to [NaN] resets [distanceKm] to 1;
    every other entry is stored as the number it converts to, without a
    lower bound: a typed whole number [n] from 0 to below 2^53 is stored
    as a number that denotes [n], 0 included.  Nothing else in the state
    changes. *)
Theorem radius_input_stored (s : State) :
  (forall v, isNaN (Number v) = true ->
             distanceKm (exec (distance_onChange v) s) = Fin 1 0)
  /\ (forall v, isNaN (Number v) = false ->
                distanceKm (exec (distance_onChange v) s) = Number v)
  /\ (forall n, 0 <= n < 2 ^ 53 ->
                exists m e,
                  distanceKm (exec (distance_onChange (decimalDigits n)) s)
                  = Fin m e
                  /\ 0 <= e /\ m * 10 ^ e = n)
  /\ (forall v,
        exec (distance_onChange v) s
        = exec (setDistanceKm (distanceKm (exec (distance_onChange v) s))) s).
Proof.
  split; [|split; [|split]].
  - intros v H. handler. cbn. rewrite H. reflexivity.
  - intros v H. handler. cbn. rewrite H. reflexivity.
  - intros n H. unfold distance_onChange.
    rewrite (Number_decimalDigits n) by lia.
    destruct (toBinary64_integer_value n H) as (m & e & E & He & Hv).
    exists m, e. rewrite E. repeat split; assumption.
  - intros v. reflexivity.
Qed.

Lemma radius_input_stored_witness :
  distanceKm (exec (distance_onChange `"abc") initialState) = Fin 1 0
  /\ distanceKm (exec (distance_onChange `"0.5") initialState) = Fin 5 (-1)
  /\ exists m e,
       distanceKm (exec (distance_onChange (decimalDigits 0)) initialState)
       = Fin m e
       /\ 0 <= e /\ m * 10 ^ e = 0.
Proof.
  split; [|split].
  - apply (proj1 (radius_input_stored initialState) `"abc"). reflexivity.
  - apply (proj1 (proj2 (radius_input_stored initialState)) `"0.5").
    reflexivity.
  - apply (proj1 (proj2 (proj2 (radius_input_stored initialState))) 0).
    split; [lia | reflexivity].
Defined.

(** ** The ZIP input *)

(** C5, as the specification states it, fails: the handler keeps all six
    digits of "123456". *)
Lemma zip_length_counterexample :
  let s' := exec (zip_onChange `"123456") initialState in
  postalCode s' = `"123456" /\ ~ (length (postalCode s') <= 5)%nat.
Proof. split; [reflexivity | vm_compute; lia]. Qed.

Lemma removeNonDigits_allDigits s : allDigits (removeNonDigits s) = true.
Proof.
  apply forallb_forall. intros c Hc. now apply filter_In in Hc.
Qed.

Lemma removeNonDigits_length s :
  (length (removeNonDigits s) <= length s)%nat.
Proof. apply filter_length_le. Qed.

Lemma zip_onChange_postalCode v s :
  postalCode (exec (zip_onChange v) s) = removeNonDigits v.
Proof.
  handler. destruct (removeNonDigits v); reflexivity.
Qed.

(** C5, amended. After a postal code input event the stored [postalCode]
    holds digits only and is no longer than the raw input; it has at most
    5 characters whenever the raw input has, which is what [maxLength] 5
    asks of the browser. *)
Theorem zip_digits_only (eventTargetValue : jsstring) (s : State) :
  let s' := exec (zip_onChange eventTargetValue) s in
  forallb isDigit (postalCode s') = true
  /\ (length (postalCode s') <= length eventTargetValue)%nat
  /\ ((length eventTargetValue <= 5)%nat -> (length (postalCode s') <= 5)%nat).
Proof.
  intros s'. subst s'. rewrite zip_onChange_postalCode.
  pose proof (removeNonDigits_length eventTargetValue).
  split; [apply removeNonDigits_allDigits|]. split; [assumption | lia].
Qed.

Lemma zip_digits_only_witness :
  (length (postalCode (exec (zip_onChange `"8o3-2") initialState)) <= 5)%nat.
Proof.
  apply (zip_digits_only `"8o3-2" initialState). vm_compute. lia.
Defined.

(** ** A search from start to end *)

Lemma reachable_run env navigator evs s :
  reachable env navigator s -> reachable env navigator (run env navigator evs s).
Proof.
  revert s. induction evs as [|ev evs IH]; intros s H; [exact H|].
  cbn [run]. apply IH. now apply reachable_step.
Qed.

(** Radius 25, ZIP code 80302, random mode, and a response that carries a
    hotspot: the view shows its card and [hasFetched] is true. *)
Example random_search_scenario :
  let env := {| VITE_API_BASE_URL := None |} in
  let navigator := {| geolocation := true |} in
  let sawhill := {|
    Hotspot.locId := `"L1";
    Hotspot.name := `"Sawhill Ponds";
    Hotspot.latitude := Number `"40.0441";
    Hotspot.longitude := Number `"-105.1836";
    Hotspot.countryCode := `"US";
    Hotspot.regionCode := `"US-CO";
    Hotspot.distanceKm := Some (Number `"4.2");
    Hotspot.url := `"https://ebird.org/hotspot/L1";
    Hotspot.activity := {|
      HotspotActivity.checklistCount := Fin 12 0;
      HotspotActivity.observationCount := Fin 240 0;
      HotspotActivity.lastObservationDate := None;
      HotspotActivity.score := Fin 264 0 |} |} in
  let response := {|
    Response.status := 200;
    Response.json := Normal (value {|
      Payload.message := None;
      Payload.hotspot := Some sawhill;
      Payload.hotspots := None |}) |} in
  let typed := run env navigator [ZipChanged `"80302"] (exec modeEffect initialState) in
  let s := run env navigator [SubmitClicked; FetchSettled typed (Normal response)] typed in
  fst (fetchHotspots_start env typed typed)
  = Normal (Some `"http://localhost:4000/api/hotspots/random?distanceKm=25&postalCode=80302")
  /\ hasFetched s = true
  /\ randomSection s = [randomCard sawhill]
  /\ shows `"Sawhill Ponds" [App s] = true
  /\ shows `"Coordinates: " [App s] = true
  /\ shows `"40.044" [App s] = true
  /\ shows `"4.2 km" [App s] = true.
Proof. repeat split. Qed.

(** * Further properties of the component *)

(** ** Invariants of the reachable states *)

Ltac settle_cases fetched r :=
  let response := fresh "response" in
  let payload := fresh "payload" in
  let t := fresh "t" in
  handler;
  destruct fetched as [response|t]; [|destruct t];
  [destruct (Response.json response) as [[|payload]|t];
   [destruct (negb (Response.ok response)); [|destruct (mode r)]
   |destruct (negb (Response.ok response)); [|destruct (mode r)]
   |destruct t]
  | | ].

Lemma distanceKm_step env navigator ev s :
  isNaN (distanceKm s) = false ->
  isNaN (distanceKm (step env navigator ev s)) = false.
Proof.
  intros H. destruct ev; cbn [step].
  - handler. destruct (Mode_eqb m (mode s)); exact H.
  - handler. cbn. destruct (isNaN (Number eventTargetValue)) eqn:E;
      [reflexivity | exact E].
  - handler. destruct (truthy (removeNonDigits eventTargetValue)); exact H.
  - destruct (geolocating s); [exact H|].
    handler. destruct (negb (geolocation navigator)); exact H.
  - exact H.
  - exact H.
  - destruct (loading s); [exact H|].
    unfold exec. rewrite fetchHotspots_start_cleared.
    destruct (isNull (coords s) && negb (length (trim (postalCode s)) =? 5)%nat)%bool;
      exact H.
  - settle_cases fetched r; exact H.
Qed.

(** X2. The radius is a number in every state the component reaches: the
    [NaN] guard of the radius input keeps [distanceKm] from ever being
    [NaN]. *)
Theorem distanceKm_never_NaN env navigator s :
  reachable env navigator s -> isNaN (distanceKm s) = false.
Proof.
  induction 1 as [|ev s _ IH]; [reflexivity|].
  now apply distanceKm_step.
Qed.

Lemma distanceKm_never_NaN_witness :
  isNaN (distanceKm
           (run {| VITE_API_BASE_URL := None |} {| geolocation := true |}
              [DistanceChanged `"12"; DistanceChanged `"1e"; SubmitClicked]
              (exec modeEffect initialState)))
  = false.
Proof.
  apply (distanceKm_never_NaN {| VITE_API_BASE_URL := None |}
           {| geolocation := true |}).
  apply reachable_run. apply reachable_mount.
Defined.

Lemma postalCode_step env navigator ev s :
  allDigits (postalCode s) = true ->
  allDigits (postalCode (step env navigator ev s)) = true.
Proof.
  intros H. destruct ev; cbn [step].
  - handler. destruct (Mode_eqb m (mode s)); exact H.
  - exact H.
  - rewrite zip_onChange_postalCode. apply removeNonDigits_allDigits.
  - destruct (geolocating s); [exact H|].
    handler. destruct (negb (geolocation navigator)); exact H.
  - reflexivity.
  - exact H.
  - destruct (loading s); [exact H|].
    unfold exec. rewrite fetchHotspots_start_cleared.
    destruct (isNull (coords s) && negb (length (trim (postalCode s)) =? 5)%nat)%bool;
      exact H.
  - settle_cases fetched r; exact H.
Qed.

Lemma reachable_postalCode_digits env navigator s :
  reachable env navigator s -> allDigits (postalCode s) = true.
Proof.
  induction 1 as [|ev s _ IH]; [reflexivity|].
  now apply postalCode_step.
Qed.

Lemma trim_digits s : allDigits s = true -> trim s = s.
Proof.
  intros H. apply trim_id. apply forallb_forall. intros c Hc.
  unfold allDigits in H. rewrite forallb_forall in H.
  now rewrite (isDigit_not_whiteSpace c (H c Hc)).
Qed.

(** X3. In every state the component reaches the postal code holds digits
    only, whatever was typed and whatever the network and the browser
    answered; trimming it, as the label, the validation and the query do,
    changes nothing. *)
Theorem postalCode_always_digits env navigator s :
  reachable env navigator s ->
  forallb isDigit (postalCode s) = true
  /\ trim (postalCode s) = postalCode s.
Proof.
  intros H. pose proof (reachable_postalCode_digits _ _ _ H) as D.
  split; [exact D | now apply trim_digits].
Qed.

Lemma postalCode_always_digits_witness :
  let s := run {| VITE_API_BASE_URL := None |} {| geolocation := true |}
             [ZipChanged `" 8o3 0-2"; ModeClicked top; ZipChanged `"80 30"]
             (exec modeEffect initialState) in
  forallb isDigit (postalCode s) = true /\ trim (postalCode s) = postalCode s.
Proof.
  intros s.
  apply (postalCode_always_digits {| VITE_API_BASE_URL := None |}
           {| geolocation := true |}).
  apply reachable_run. apply reachable_mount.
Defined.

Lemma results_step env navigator ev s :
  (hasFetched s = false -> randomHotspot s = None /\ topHotspots s = []) ->
  hasFetched (step env navigator ev s) = false ->
  randomHotspot (step env navigator ev s) = None
  /\ topHotspots (step env navigator ev s) = [].
Proof.
  intros H. destruct ev; cbn [step].
  - handler. destruct (Mode_eqb m (mode s)); [exact H|].
    intros _. split; reflexivity.
  - exact H.
  - handler. destruct (truthy (removeNonDigits eventTargetValue)); exact H.
  - destruct (geolocating s); [exact H|].
    handler. destruct (negb (geolocation navigator)); exact H.
  - exact H.
  - exact H.
  - destruct (loading s); [exact H|].
    unfold exec. rewrite fetchHotspots_start_cleared.
    destruct (isNull (coords s) && negb (length (trim (postalCode s)) =? 5)%nat)%bool;
      intros _; split; reflexivity.
  - settle_cases fetched r; cbn; try exact H; discriminate.
Qed.

(** X4. Results are only there after a completed search: in every state
    the component reaches, [hasFetched] false means that [randomHotspot]
    is null and [topHotspots] is empty. *)
Theorem no_results_before_fetch env navigator s :
  reachable env navigator s ->
  hasFetched s = false ->
  randomHotspot s = None /\ topHotspots s = [].
Proof.
  induction 1 as [|ev s _ IH].
  - intros _. split; reflexivity.
  - now apply results_step.
Qed.

Lemma no_results_before_fetch_witness :
  let env := {| VITE_API_BASE_URL := None |} in
  let navigator := {| geolocation := true |} in
  let typed := run env navigator [ZipChanged `"80302"]
                 (exec modeEffect initialState) in
  let s := run env navigator
             [SubmitClicked;
              FetchSettled typed
                (Normal {| Response.status := 200;
                           Response.json := Normal (value {|
                             Payload.message := None;
                             Payload.hotspot := None;
                             Payload.hotspots := None |}) |});
              ModeClicked top]
             typed in
  randomHotspot s = None /\ topHotspots s = [].
Proof.
  intros env navigator typed s.
  apply (no_results_before_fetch env navigator s).
  - apply reachable_run. apply reachable_run. apply reachable_mount.
  - reflexivity.
Defined.

Lemma status_step env navigator ev s :
  knownStatus (status s) = true ->
  knownStatus (status (step env navigator ev s)) = true.
Proof.
  intros H. destruct ev; cbn [step].
  - handler. destruct (Mode_eqb m (mode s)); [exact H | reflexivity].
  - exact H.
  - handler. destruct (truthy (removeNonDigits eventTargetValue)); exact H.
  - destruct (geolocating s); [exact H|].
    handler. destruct (negb (geolocation navigator)); [exact H | reflexivity].
  - reflexivity.
  - reflexivity.
  - destruct (loading s); [exact H|].
    unfold exec. rewrite fetchHotspots_start_cleared.
    destruct (isNull (coords s) && negb (length (trim (postalCode s)) =? 5)%nat)%bool;
      reflexivity.
  - settle_cases fetched r; exact H.
Qed.

Lemma eqb_eq (a b : jsstring) : JsString.eqb a b = true -> a = b.
Proof.
  revert b. induction a as [|x a IH]; intros [|y b] H; try discriminate.
  - reflexivity.
  - cbn in H. apply andb_true_iff in H. destruct H as [Hx Hr].
    apply N.eqb_eq in Hx. subst. f_equal. now apply IH.
Qed.

(** X5. The status line only ever reads one of two texts: in every state
    the component reaches, [status] is null, "Requesting your location..."
    or "Location locked in. Ready when you are!"; no response of the
    server and no error of the browser gets into it. *)
Theorem status_values env navigator s :
  reachable env navigator s ->
  status s = None
  \/ status s = Some `"Requesting your location..."
  \/ status s = Some `"Location locked in. Ready when you are!".
Proof.
  intros H.
  assert (K : knownStatus (status s) = true).
  { induction H as [|ev s _ IH]; [reflexivity|]. now apply status_step. }
  unfold knownStatus in K. destruct (status s) as [m|]; [|now left].
  apply orb_true_iff in K. destruct K as [K|K]; apply eqb_eq in K; subst.
  - right. left. reflexivity.
  - right. right. reflexivity.
Qed.

Lemma status_values_witness :
  let s := run {| VITE_API_BASE_URL := None |} {| geolocation := true |}
             [LocationClicked;
              FetchSettled initialState (Throw (ErrorObject `"Failed to fetch"))]
             (exec modeEffect initialState) in
  status s = None
  \/ status s = Some `"Requesting your location..."
  \/ status s = Some `"Location locked in. Ready when you are!".
Proof.
  intros s.
  apply (status_values {| VITE_API_BASE_URL := None |}
           {| geolocation := true |}).
  apply reachable_run. apply reachable_mount.
Defined.

(** ** The end of a request *)

(** X6. However a request ends (rejected, unreadable body, error status
    or success), [loading] is false afterwards, and the inputs ([mode],
    [distanceKm], [postalCode], [coords]), [geolocating] and [status] are
    what they were when the answer arrived. *)
Theorem settle_ends_loading (r : State) (fetched : Completion Response.t)
  (s : State) :
  let s' := exec (fetchHotspots_settle r fetched) s in
  loading s' = false
  /\ mode s' = mode s
  /\ distanceKm s' = distanceKm s
  /\ postalCode s' = postalCode s
  /\ coords s' = coords s
  /\ geolocating s' = geolocating s
  /\ status s' = status s.
Proof.
  intros s'. subst s'. settle_cases fetched r; repeat split.
Qed.

Lemma fetchHotspots_settle_thrown r s fetched t :
  fetched = Throw t
  \/ (exists response, fetched = Normal response
                       /\ Response.json response = Throw t) ->
  fetchHotspots_settle r fetched s
  = (Normal tt,
     exec (setLoading false)
       (exec (setError (Some match t with
                             | ErrorObject m => m
                             | NotAnError => `"Unexpected error."
                             end)) s)).
Proof.
  intros [->|(response & -> & Hj)]; handler; [|rewrite Hj];
    destruct t; reflexivity.
Qed.

(** X7. A rejected fetch and a body that is not JSON end the same way,
    whatever the status code is, a success status included: [error] is
    the message of the thrown error ("Unexpected error." for a value that
    is not an error), and [hasFetched] and the results stay as they
    were.  The body is read before the status is looked at. *)
Theorem thrown_request_error (r s : State) (fetched : Completion Response.t)
  (t : Thrown) :
  fetched = Throw t
  \/ (exists response, fetched = Normal response
                       /\ Response.json response = Throw t) ->
  let s' := exec (fetchHotspots_settle r fetched) s in
  error s' = Some match t with
                  | ErrorObject m => m
                  | NotAnError => `"Unexpected error."
                  end
  /\ hasFetched s' = hasFetched s
  /\ randomHotspot s' = randomHotspot s
  /\ topHotspots s' = topHotspots s.
Proof.
  intros H s'. subst s'. unfold exec at 1 2 3 4.
  rewrite (fetchHotspots_settle_thrown r s fetched t H).
  repeat split.
Qed.

Lemma thrown_request_error_witness :
  let response := {|
    Response.status := 200;
    Response.json := Throw (ErrorObject `"Unexpected token < in JSON") |} in
  let s' := exec (fetchHotspots_settle initialState (Normal response))
              initialState in
  error s' = Some `"Unexpected token < in JSON" /\ hasFetched s' = false.
Proof.
  intros response s'.
  destruct (thrown_request_error initialState initialState (Normal response)
              (ErrorObject `"Unexpected token < in JSON"))
    as (H1 & H2 & _).
  - right. exists response. split; reflexivity.
  - split; [exact H1 | exact H2].
Defined.

Lemma fetchHotspots_settle_random_success r s response (payload : Payload.t) :
  mode r = random ->
  Response.json response = Normal (value payload) ->
  Response.ok response = true ->
  fetchHotspots_settle r (Normal response) s
  = (Normal tt,
     exec (setLoading false)
       (exec (setHasFetched true)
          (exec (setRandomHotspot (Payload.hotspot payload)) s))).
Proof.
  intros Hm Hj Hok. handler. rewrite Hj, Hok, Hm. reflexivity.
Qed.

(** X8. A successful answer to a random search stores [payload.hotspot],
    sets [hasFetched] and leaves [topHotspots] and [error] alone.  Shown
    in random mode, the view then has the card of that hotspot, and
    nothing at all when the payload has no hotspot: random mode has no
    empty-state text. *)
Theorem random_success (r s : State) (response : Response.t)
  (payload : Payload.t) :
  mode r = random ->
  Response.ok response = true ->
  Response.json response = Normal (value payload) ->
  let s' := exec (fetchHotspots_settle r (Normal response)) s in
  randomHotspot s' = Payload.hotspot payload
  /\ hasFetched s' = true
  /\ topHotspots s' = topHotspots s
  /\ error s' = error s
  /\ (mode s = random ->
      randomSection s' = match Payload.hotspot payload with
                         | Some h => [randomCard h]
                         | None => []
                         end
      /\ topSection s' = []).
Proof.
  intros Hm Hok Hj s'.
  assert (E : s' = exec (setLoading false)
                     (exec (setHasFetched true)
                        (exec (setRandomHotspot (Payload.hotspot payload)) s))).
  { subst s'. unfold exec at 1.
    now rewrite (fetchHotspots_settle_random_success _ _ _ _ Hm Hj Hok). }
  rewrite E. repeat split.
  - unfold randomSection. cbn. rewrite H.
    destruct (Payload.hotspot payload); reflexivity.
  - unfold topSection. cbn. rewrite H. reflexivity.
Qed.

Lemma random_success_witness :
  let response := {|
    Response.status := 200;
    Response.json := Normal (value {| Payload.message := None;
                               Payload.hotspot := None;
                               Payload.hotspots := None |}) |} in
  let s' := exec (fetchHotspots_settle initialState (Normal response))
              initialState in
  hasFetched s' = true /\ randomSection s' = [] /\ topSection s' = [].
Proof.
  intros response s'.
  pose proof (random_success initialState initialState response
                {| Payload.message := None;
                   Payload.hotspot := None;
                   Payload.hotspots := None |}
                eq_refl eq_refl eq_refl) as (_ & H2 & _ & _ & H5).
  split; [exact H2 | exact (H5 eq_refl)].
Defined.

(** X9. An answer is handled with the mode its request started in.  When
    a random search is still in flight and the user switches to top mode,
    the late answer sets [hasFetched] without touching [topHotspots]: the
    top section then reads "No hotspots met the 7-day activity
    threshold", although no top search was made. *)
Theorem stale_random_answer_in_top_mode (r s : State) (response : Response.t)
  (payload : Payload.t) :
  mode r = random ->
  mode s = top ->
  topHotspots s = [] ->
  Response.ok response = true ->
  Response.json response = Normal (value payload) ->
  let s' := exec (fetchHotspots_settle r (Normal response)) s in
  hasFetched s' = true
  /\ topHotspots s' = []
  /\ randomSection s' = []
  /\ topResults s'
     = Element "p" [className "muted"]
         [Text `"No hotspots met the 7-day activity threshold within this radius."]
  /\ shows noHotspotsMessage (topSection s') = true.
Proof.
  intros Hr Hs Ht Hok Hj s'.
  assert (E : s' = exec (setLoading false)
                     (exec (setHasFetched true)
                        (exec (setRandomHotspot (Payload.hotspot payload)) s))).
  { subst s'. unfold exec at 1.
    now rewrite (fetchHotspots_settle_random_success _ _ _ _ Hr Hj Hok). }
  rewrite E. unfold randomSection, topSection, topResults. cbn.
  rewrite Hs, Ht. cbn.
  repeat split. destruct (Payload.hotspot payload); reflexivity.
Qed.

Lemma stale_random_answer_in_top_mode_witness :
  let env := {| VITE_API_BASE_URL := None |} in
  let navigator := {| geolocation := true |} in
  let response := {|
    Response.status := 200;
    Response.json := Normal (value {| Payload.message := None;
                               Payload.hotspot := None;
                               Payload.hotspots := None |}) |} in
  let typed := run env navigator [ZipChanged `"80302"]
                 (exec modeEffect initialState) in
  let switched := run env navigator [SubmitClicked; ModeClicked top] typed in
  shows noHotspotsMessage
    (topSection (step env navigator (FetchSettled typed (Normal response))
                   switched))
  = true.
Proof.
  intros env navigator response typed switched.
  apply (stale_random_answer_in_top_mode typed switched response
           {| Payload.message := None;
              Payload.hotspot := None;
              Payload.hotspots := None |});
    reflexivity.
Defined.

(** X12. A successful answer to a top search is shown as it came: one
    card per hotspot of the payload, in the payload's order; the client
    neither sorts the list nor cuts it to five. *)
Theorem top_success_grid (r s : State) (response : Response.t)
  (payload : Payload.t) (spot : Hotspot.t) (spots : list Hotspot.t) :
  mode r = top ->
  mode s = top ->
  Response.ok response = true ->
  Response.json response = Normal (value payload) ->
  Payload.hotspots payload = Some (spot :: spots) ->
  let s' := exec (fetchHotspots_settle r (Normal response)) s in
  topHotspots s' = spot :: spots
  /\ hasFetched s' = true
  /\ topSection s'
     = [Element "section" [className "card"]
          [Element "h2" [] [Text `"Top 5 active hotspots"];
           Element "p" [className "muted"]
             [Text `"Ranked by checklists and observations submitted in the last 7 days (score = checklists x 2 + observations)."];
           Element "div" [className "results-grid"]
             (map topCard (spot :: spots))]].
Proof.
  intros Hr Hs Hok Hj Hh s'.
  assert (E : s' = exec (setLoading false)
                     (exec (setHasFetched true)
                        (exec (setTopHotspots (spot :: spots)) s))).
  { subst s'. unfold exec at 1.
    rewrite (fetchHotspots_settle_top_success _ _ _ _ Hr Hj Hok), Hh.
    reflexivity. }
  rewrite E. unfold topSection, topResults. cbn. rewrite Hs.
  repeat split.
Qed.

Lemma top_success_grid_witness :
  let spot := {|
    Hotspot.locId := `"L1";
    Hotspot.name := `"Sawhill Ponds";
    Hotspot.latitude := Number `"40.0441";
    Hotspot.longitude := Number `"-105.1836";
    Hotspot.countryCode := `"US";
    Hotspot.regionCode := `"US-CO";
    Hotspot.distanceKm := None;
    Hotspot.url := `"https://ebird.org/hotspot/L1";
    Hotspot.activity := {|
      HotspotActivity.checklistCount := Fin 12 0;
      HotspotActivity.observationCount := Fin 240 0;
      HotspotActivity.lastObservationDate := None;
      HotspotActivity.score := Fin 264 0 |} |} in
  let payload := {| Payload.message := None;
                    Payload.hotspot := None;
                    Payload.hotspots := Some [spot; spot; spot; spot; spot; spot] |} in
  let response := {| Response.status := 200;
                     Response.json := Normal (value payload) |} in
  let s := exec (mode_onClick top initialState) initialState in
  length (topHotspots (exec (fetchHotspots_settle s (Normal response)) s))
  = 6%nat.
Proof.
  intros spot payload response s.
  destruct (top_success_grid s s response payload spot
              [spot; spot; spot; spot; spot]
              eq_refl eq_refl eq_refl eq_refl eq_refl) as (H & _).
  rewrite H. reflexivity.
Defined.

(** ** What the view hides *)

(** X10. While a request is in flight neither result section is
    rendered, whatever results the state holds; and the two result
    sections are never rendered together. *)
Theorem result_sections_exclusive (s : State) :
  (loading s = true -> randomSection s = [] /\ topSection s = [])
  /\ (randomSection s <> [] -> topSection s = [])
  /\ (topSection s <> [] -> randomSection s = []).
Proof.
  unfold randomSection, topSection, when.
  destruct (loading s), (mode s), (randomHotspot s); cbn;
    repeat split; intros; try reflexivity; congruence.
Qed.

Lemma result_sections_exclusive_witness :
  let s := exec (setLoading true)
             (exec (setTopHotspots []) 
                (exec (setHasFetched true)
                   (exec (mode_onClick top initialState) initialState))) in
  randomSection s = [] /\ topSection s = [].
Proof.
  intros s. apply (proj1 (result_sections_exclusive s)). reflexivity.
Defined.

(** X21. A failure can be silent: when the server answers an error status
    with an empty [message], the empty string is kept (it is not null, so
    the fallback text is not used) and no error banner is rendered. *)
Theorem empty_message_no_banner (r s : State) (response : Response.t)
  (payload : Payload.t) :
  Response.ok response = false ->
  Response.json response = Normal (value payload) ->
  Payload.message payload = Some [] ->
  let s' := exec (fetchHotspots_settle r (Normal response)) s in
  error s' = Some [] /\ errorBanner s' = [] /\ hasFetched s' = hasFetched s.
Proof.
  intros Hok Hj Hm s'.
  assert (E : s' = exec (setLoading false) (exec (setError (Some [])) s)).
  { subst s'. unfold exec at 1.
    rewrite (fetchHotspots_settle_error_status _ _ _ _ Hj Hok), Hm.
    reflexivity. }
  rewrite E. repeat split.
Qed.

Lemma empty_message_no_banner_witness :
  let payload := {| Payload.message := Some [];
                    Payload.hotspot := None;
                    Payload.hotspots := None |} in
  let response := {| Response.status := 500;
                     Response.json := Normal (value payload) |} in
  errorBanner (exec (fetchHotspots_settle initialState (Normal response))
                 initialState)
  = [].
Proof.
  intros payload response.
  apply (empty_message_no_banner initialState initialState response payload);
    reflexivity.
Defined.

(** ** The inputs *)

(** X16. A click on the button of the mode that is already selected
    changes nothing: the results, the status and the error of the last
    search stay on screen. *)
Theorem same_mode_click_keeps_state (s : State) :
  exec (mode_onClick (mode s) s) s = s.
Proof.
  handler. destruct s as [m d p c l g e st rh th hf]. cbn.
  destruct m; reflexivity.
Qed.

(** X17. An input to the ZIP field that holds no digit empties the postal
    code and keeps the coordinates: typing letters does not give up a
    location the browser has provided. *)
Theorem zip_without_digits_keeps_coords (eventTargetValue : jsstring)
  (s : State) :
  forallb (fun c => negb (isDigit c)) eventTargetValue = true ->
  let s' := exec (zip_onChange eventTargetValue) s in
  postalCode s' = [] /\ coords s' = coords s.
Proof.
  intros H s'.
  assert (E : removeNonDigits eventTargetValue = []).
  { unfold removeNonDigits. induction eventTargetValue as [|c v IH];
      [reflexivity|].
    cbn in H. apply andb_true_iff in H. destruct H as [Hc Hv].
    cbn. apply negb_true_iff in Hc. rewrite Hc. now apply IH. }
  subst s'. handler. rewrite E. split; reflexivity.
Qed.

Lemma zip_without_digits_keeps_coords_witness :
  let located :=
    exec (requestCurrentLocation_success
            {| Geolocation.coords :=
                 {| Geolocation.latitude := Fin 40015625 (-6);
                    Geolocation.longitude := Fin (-1052705078125) (-10) |} |})
      initialState in
  coords (exec (zip_onChange `"abc") located) = coords located.
Proof.
  intros located.
  apply (zip_without_digits_keeps_coords `"abc" located). reflexivity.
Defined.

Lemma trim_whiteSpace (v : jsstring) :
  forallb isWhiteSpace v = true -> trim v = [].
Proof.
  intros H. unfold trim, trimStart.
  assert (dropWhile isWhiteSpace v = []) as ->; [|reflexivity].
  induction v as [|c v IH]; [reflexivity|].
  cbn in H. apply andb_true_iff in H. destruct H as [Hc Hv].
  cbn. rewrite Hc. now apply IH.
Qed.

(** X1. An empty radius field, or one that holds white space only, is not
    treated as invalid: [Number] converts it to 0, so the radius becomes
    0 and not 1. *)
Theorem blank_radius_is_zero (eventTargetValue : jsstring) (s : State) :
  forallb isWhiteSpace eventTargetValue = true ->
  Number eventTargetValue = Fin 0 0
  /\ distanceKm (exec (distance_onChange eventTargetValue) s) = Fin 0 0.
Proof.
  intros H.
  assert (E : Number eventTargetValue = Fin 0 0).
  { unfold Number. rewrite (trim_whiteSpace _ H). reflexivity. }
  split; [exact E|]. unfold distance_onChange. rewrite E. reflexivity.
Qed.

Lemma blank_radius_is_zero_witness :
  distanceKm (exec (distance_onChange []) initialState) = Fin 0 0.
Proof.
  apply (blank_radius_is_zero [] initialState). reflexivity.
Defined.

(** ** Submitting from a reachable state *)

(** X19. From a state the component reaches, a submit sends a request
    exactly when there are coordinates or the postal code has five
    digits. *)
Theorem request_iff_location env navigator (s : State) :
  reachable env navigator s ->
  ((exists url, fst (fetchHotspots_start env s s) = Normal (Some url))
   <-> (coords s <> None
        \/ (length (postalCode s) = 5%nat
            /\ forallb isDigit (postalCode s) = true))).
Proof.
  intros R. pose proof (reachable_postalCode_digits _ _ _ R) as D.
  pose proof (trim_digits _ D) as T.
  rewrite fetchHotspots_start_cleared, T.
  destruct (coords s) as [c|]; cbn [isNull andb].
  - split; [intros _; left; discriminate | intros _; eexists; reflexivity].
  - destruct (length (postalCode s) =? 5)%nat eqn:E; cbn [negb fst].
    + apply Nat.eqb_eq in E.
      split; [intros _; right; now split | intros _; eexists; reflexivity].
    + apply Nat.eqb_neq in E. split.
      * intros [url H]. discriminate.
      * intros [H|[H _]]; congruence.
Qed.

Lemma request_iff_location_witness :
  let env := {| VITE_API_BASE_URL := None |} in
  let navigator := {| geolocation := true |} in
  let s := run env navigator [ZipChanged `"80302"]
             (exec modeEffect initialState) in
  exists url, fst (fetchHotspots_start env s s) = Normal (Some url).
Proof.
  intros env navigator s.
  apply (request_iff_location env navigator s).
  - apply reachable_run. apply reachable_mount.
  - right. split; reflexivity.
Defined.

(** X20. The line under the form names the location a submit would use.
    In a state the component reaches and without coordinates, it is
    "Using ZIP code" followed by the postal code as stored, and the
    invitation to provide a location when the postal code is empty. *)
Theorem locationLabel_without_coords env navigator (s : State) :
  reachable env navigator s ->
  coords s = None ->
  locationLabel s
  = match postalCode s with
    | [] => `"Provide a ZIP code or share your location to get started."
    | _ :: _ => `"Using ZIP code " ++ postalCode s
    end.
Proof.
  intros R Hc. pose proof (reachable_postalCode_digits _ _ _ R) as D.
  unfold locationLabel. rewrite Hc, (trim_digits _ D).
  destruct (postalCode s); reflexivity.
Qed.

Lemma locationLabel_without_coords_witness :
  let env := {| VITE_API_BASE_URL := None |} in
  let navigator := {| geolocation := true |} in
  let s := run env navigator [ZipChanged `"80 3"]
             (exec modeEffect initialState) in
  locationLabel s = `"Using ZIP code 803".
Proof.
  intros env navigator s.
  apply (locationLabel_without_coords env navigator s).
  - apply reachable_run. apply reachable_mount.
  - reflexivity.
Defined.

(** ** Asking for the location *)

(** X11. Asking for the location never loses the location already
    entered.  Where the browser has no geolocation, the click only sets
    the error "Geolocation is not supported in this browser." and makes
    no request; where it has, and the browser then reports an error, the
    coordinates and the postal code are what they were, [geolocating] is
    false again and [error] is the browser's message, "Unable to access
    your location." when it has none. *)
Theorem location_request_keeps_inputs env (navigator : Navigator)
  (geoError : Geolocation.PositionError) (s : State) :
  geolocating s = false ->
  let clicked := step env navigator LocationClicked s in
  let failed := step env navigator (PositionFailed geoError) clicked in
  (geolocation navigator = false ->
   fst (requestCurrentLocation navigator s) = Normal false
   /\ error clicked = Some `"Geolocation is not supported in this browser."
   /\ geolocating clicked = false
   /\ status clicked = status s)
  /\ (geolocation navigator = true ->
      fst (requestCurrentLocation navigator s) = Normal true
      /\ geolocating clicked = true
      /\ error clicked = None
      /\ geolocating failed = false
      /\ error failed
         = Some match Geolocation.message geoError with
                | Some m => m
                | None => `"Unable to access your location."
                end)
  /\ coords clicked = coords s /\ postalCode clicked = postalCode s
  /\ coords failed = coords s /\ postalCode failed = postalCode s.
Proof.
  intros Hg clicked failed.
  assert (F : geolocating failed = false
              /\ error failed
                 = Some match Geolocation.message geoError with
                        | Some m => m
                        | None => `"Unable to access your location."
                        end
              /\ coords failed = coords clicked
              /\ postalCode failed = postalCode clicked).
  { subst failed. generalize clicked as c. intros c. cbn [step]. handler.
    cbn [error geolocating coords postalCode].
    destruct (Geolocation.message geoError); repeat split. }
  destruct F as (F1 & F2 & F3 & F4). rewrite F3, F4.
  clearbody failed. subst clicked. cbn [step]. rewrite Hg.
  unfold requestCurrentLocation.
  destruct (geolocation navigator); cbn [negb]; handler;
    cbn [error status geolocating coords postalCode];
    (split; [intros Hx | split; [intros Hx|]]);
    try discriminate Hx;
    repeat match goal with |- _ /\ _ => split end;
    try reflexivity; assumption.
Qed.

Lemma location_request_keeps_inputs_witness :
  let env := {| VITE_API_BASE_URL := None |} in
  let navigator := {| geolocation := true |} in
  let s := run env navigator [ZipChanged `"80302"] initialState in
  postalCode
    (step env navigator
       (PositionFailed {| Geolocation.code := 1; Geolocation.message := None |})
       (step env navigator LocationClicked s))
  = `"80302".
Proof.
  intros env navigator s.
  apply (location_request_keeps_inputs env navigator
           {| Geolocation.code := 1; Geolocation.message := None |} s).
  reflexivity.
Defined.

(** ** Numbers as text *)

Lemma toFixed_shape m e f :
  atLeast1e21 (Z.abs m) e = false ->
  exists a b,
    toFixed (Fin m e) (S f)
    = (if m <? 0 then `"-" else []) ++ a ++ `"." ++ b
    /\ a <> [] /\ allDigits a = true /\ allDigits b = true
    /\ length b = S f
    /\ digitsValue 0 (a ++ b) = roundScaled (Z.abs m) (e + Z.of_nat (S f)).
Proof.
  intros Hbig. unfold toFixed. rewrite Hbig.
  set (n := roundScaled (Z.abs m) (e + Z.of_nat (S f))).
  assert (Hn : 0 <= n) by (apply roundScaled_nonneg; lia).
  set (M := if (length (decimalDigits n) <=? S f)%nat
            then zeros (S f + 1 - length (decimalDigits n)) ++ decimalDigits n
            else decimalDigits n).
  assert (HM : allDigits M = true).
  { subst M. destruct (length (decimalDigits n) <=? S f)%nat.
    - rewrite allDigits_app, allDigits_zeros. apply decimalDigits_allDigits.
    - apply decimalDigits_allDigits. }
  assert (HV : digitsValue 0 M = n).
  { subst M. destruct (length (decimalDigits n) <=? S f)%nat.
    - rewrite digitsValue_zeros. now apply digitsValue_decimalDigits.
    - now apply digitsValue_decimalDigits. }
  assert (HL : (S f < length M)%nat).
  { subst M. destruct (length (decimalDigits n) <=? S f)%nat eqn:E.
    - apply Nat.leb_le in E. rewrite length_app, length_zeros. lia.
    - apply Nat.leb_gt in E. exact E. }
  exists (firstn (length M - S f) M), (skipn (length M - S f) M).
  pose proof (firstn_skipn (length M - S f) M) as Hab.
  split; [reflexivity|].
  split.
  { intros E. pose proof (f_equal (@length N) E) as L.
    rewrite length_firstn in L. cbn in L. lia. }
  assert (Ha : allDigits (firstn (length M - S f) M) = true
               /\ allDigits (skipn (length M - S f) M) = true).
  { apply andb_true_iff. rewrite <- allDigits_app, Hab. exact HM. }
  destruct Ha as [Ha Hb].
  repeat split; try assumption.
  - rewrite length_skipn. lia.
  - rewrite Hab. exact HV.
Qed.

(** X13. With coordinates, the line under the form reads "Using your GPS
    location (lat, lng)" with both numbers in fixed notation: an optional
    minus sign, at least one digit, a point and exactly two digits. *)
Theorem locationLabel_with_coords (s : State) (mlat elat mlng elng : Z) :
  coords s = Some {| lat := Fin mlat elat; lng := Fin mlng elng |} ->
  atLeast1e21 (Z.abs mlat) elat = false ->
  atLeast1e21 (Z.abs mlng) elng = false ->
  exists a1 b1 a2 b2,
    locationLabel s
    = `"Using your GPS location ("
        ++ ((if mlat <? 0 then `"-" else []) ++ a1 ++ `"." ++ b1)
        ++ `", "
        ++ ((if mlng <? 0 then `"-" else []) ++ a2 ++ `"." ++ b2)
        ++ `")"
    /\ a1 <> [] /\ a2 <> []
    /\ allDigits (a1 ++ b1 ++ a2 ++ b2) = true
    /\ length b1 = 2%nat /\ length b2 = 2%nat.
Proof.
  intros Hc H1 H2.
  destruct (toFixed_shape mlat elat 1 H1) as (a1 & b1 & E1 & N1 & A1 & B1 & L1 & _).
  destruct (toFixed_shape mlng elng 1 H2) as (a2 & b2 & E2 & N2 & A2 & B2 & L2 & _).
  exists a1, b1, a2, b2.
  unfold locationLabel. rewrite Hc. cbn [lat lng]. rewrite E1, E2.
  repeat split; try assumption.
  rewrite !allDigits_app, A1, B1, A2, B2. reflexivity.
Qed.

Lemma locationLabel_with_coords_witness :
  let s := exec (requestCurrentLocation_success
                   {| Geolocation.coords :=
                        {| Geolocation.latitude := Fin 405 (-1);
                           Geolocation.longitude := Fin (-10525) (-2) |} |})
             initialState in
  locationLabel s = `"Using your GPS location (40.50, -105.25)"
  /\ exists a1 b1 a2 b2,
       locationLabel s
       = `"Using your GPS location ("
           ++ ((if 405 <? 0 then `"-" else []) ++ a1 ++ `"." ++ b1)
           ++ `", "
           ++ ((if -10525 <? 0 then `"-" else []) ++ a2 ++ `"." ++ b2)
           ++ `")"
       /\ a1 <> [] /\ a2 <> []
       /\ allDigits (a1 ++ b1 ++ a2 ++ b2) = true
       /\ length b1 = 2%nat /\ length b2 = 2%nat.
Proof.
  intros s. split; [vm_compute; reflexivity|].
  apply (locationLabel_with_coords s 405 (-1) (-10525) (-2));
    vm_compute; reflexivity.
Defined.





(** ** Printing a whole number *)

Lemma revDigits_fuel f : forall f' a,
  (1 <= f)%nat -> (1 <= f')%nat ->
  0 <= a < 10 ^ Z.of_nat f -> a < 10 ^ Z.of_nat f' ->
  revDigits f a = revDigits f' a.
Proof.
  induction f as [|g IH]; intros f' a Hf Hf' Ha Ha'; [lia|].
  destruct f' as [|g']; [lia|].
  cbn [revDigits]. f_equal.
  destruct (a <? 10) eqn:E; [reflexivity|].
  apply Z.ltb_ge in E.
  rewrite Nat2Z.inj_succ, Z.pow_succ_r in Ha, Ha' by lia.
  assert (0 <= a / 10) by (apply Z.div_pos; lia).
  assert (a / 10 < 10 ^ Z.of_nat g) by (apply Z.div_lt_upper_bound; lia).
  assert (a / 10 < 10 ^ Z.of_nat g') by (apply Z.div_lt_upper_bound; lia).
  assert (1 <= a / 10) by (apply Z.div_le_lower_bound; lia).
  apply IH; try lia.
  - destruct g; [cbn in *; lia | lia].
  - destruct g'; [cbn in *; lia | lia].
Qed.

Lemma revDigits_S k n :
  revDigits (S k) n
  = digitChar (n mod 10) :: (if n <? 10 then [] else revDigits k (n / 10)).
Proof. reflexivity. Qed.

Lemma decimalDigits_mul10 a :
  0 < a -> decimalDigits (a * 10) = decimalDigits a ++ [48%N].
Proof.
  intros H. unfold decimalDigits.
  rewrite (revDigits_S _ (a * 10)).
  rewrite Z.mod_mul by lia. change (digitChar 0) with 48%N.
  assert ((a * 10 <? 10) = false) as -> by (apply Z.ltb_ge; lia).
  rewrite Z.div_mul by lia. cbn [rev]. f_equal. f_equal.
  pose proof (lt_pow10_log2 a ltac:(lia)) as L.
  assert (Hf : (Z.to_nat (Z.log2 a) + 3 <= Z.to_nat (Z.log2 (a * 10)))%nat).
  { apply Nat2Z.inj_le.
    rewrite Nat2Z.inj_add, !Z2Nat.id by apply Z.log2_nonneg.
    change (Z.of_nat 3) with 3.
    transitivity (Z.log2 (a * 2 ^ 3)).
    - rewrite Z.log2_mul_pow2 by lia. lia.
    - apply Z.log2_le_mono. change (2 ^ 3) with 8. lia. }
  apply revDigits_fuel; [lia | lia | | exact L].
  split; [lia|].
  eapply Z.lt_le_trans; [exact L|].
  apply Z.pow_le_mono_r; lia.
Qed.

Lemma decimalDigits_shift a z :
  0 < a -> decimalDigits (a * 10 ^ Z.of_nat z) = decimalDigits a ++ zeros z.
Proof.
  intros H. induction z as [|z IH].
  - cbn [Z.of_nat zeros repeat]. rewrite Z.pow_0_r, Z.mul_1_r, app_nil_r.
    reflexivity.
  - rewrite Nat2Z.inj_succ, Z.pow_succ_r by lia.
    replace (a * (10 * 10 ^ Z.of_nat z)) with (a * 10 ^ Z.of_nat z * 10) by ring.
    assert (0 < 10 ^ Z.of_nat z) by (apply Z.pow_pos_nonneg; lia).
    rewrite decimalDigits_mul10 by nia.
    rewrite IH, <- app_assoc. f_equal.
    change [48%N] with (zeros 1). unfold zeros. rewrite <- repeat_app.
    f_equal. lia.
Qed.

Lemma length_revDigits_lower fuel a :
  0 < a -> 10 ^ (Z.of_nat (length (revDigits fuel a)) - 1) <= a.
Proof.
  revert a. induction fuel as [|g IH]; intros a H.
  - cbn. lia.
  - cbn [revDigits length]. destruct (a <? 10) eqn:E.
    + cbn. lia.
    + apply Z.ltb_ge in E.
      assert (P : 0 < a / 10) by (apply Z.div_str_pos; lia).
      specialize (IH (a / 10) P).
      pose proof (Z.mul_div_le a 10 ltac:(lia)) as D.
      rewrite Nat2Z.inj_succ.
      set (L := Z.of_nat (length (revDigits g (a / 10)))) in *.
      assert (0 <= L) by (subst L; lia).
      replace (Z.succ L - 1) with L by lia.
      destruct (Z.eq_dec L 0) as [->|Hn]; [cbn; lia|].
      replace L with (Z.succ (L - 1)) by lia.
      rewrite Z.pow_succ_r by lia. lia.
Qed.

Lemma toStringPositive_whole m0 z :
  0 < m0 -> m0 mod 10 <> 0 ->
  Z.of_nat (length (decimalDigits m0)) + Z.of_nat z <= 21 ->
  toStringPositive m0 (Z.of_nat z) = decimalDigits m0 ++ zeros z.
Proof.
  intros H Hm Hl. unfold toStringPositive, significantDigits.
  unfold decimalDigits in *.
  set (r := revDigits (S (Z.to_nat (Z.log2 m0))) m0) in *.
  assert (D : dropWhile (N.eqb 48) r = r).
  { subst r. cbn [revDigits dropWhile].
    assert (N.eqb 48 (digitChar (m0 mod 10)) = false) as ->; [|reflexivity].
    apply N.eqb_neq. unfold digitChar.
    pose proof (Z.mod_pos_bound m0 10 ltac:(lia)). lia. }
  rewrite D, Nat.sub_diag, length_rev in *.
  assert ((Z.of_nat (length r) <=? Z.of_nat (length r) + (Z.of_nat z + Z.of_nat 0))
          = true) as -> by (apply Z.leb_le; lia).
  assert ((Z.of_nat (length r) + (Z.of_nat z + Z.of_nat 0) <=? 21) = true)
    as -> by (apply Z.leb_le; lia).
  cbn [andb]. f_equal. f_equal. lia.
Qed.

Lemma decompose_unique m1 z1 m0 z :
  m1 mod 10 <> 0 -> m0 mod 10 <> 0 -> 0 <= z1 -> 0 <= z ->
  m1 * 10 ^ z1 = m0 * 10 ^ z -> m1 = m0 /\ z1 = z.
Proof.
  assert (W : forall a b x y, a mod 10 <> 0 -> 0 <= x -> x < y ->
                a * 10 ^ x = b * 10 ^ y -> False).
  { intros a b x y Ha Hx Hxy E. apply Ha.
    replace y with (x + (y - x - 1) + 1) in E by lia.
    rewrite !Z.pow_add_r, Z.pow_1_r in E by lia.
    assert (0 < 10 ^ x) by (apply Z.pow_pos_nonneg; lia).
    assert (a = b * 10 ^ (y - x - 1) * 10) by nia.
    subst a. apply Z.mod_mul. lia. }
  intros H1 H0 Hz1 Hz E.
  destruct (Z.lt_trichotomy z1 z) as [L|[L|L]].
  - destruct (W m1 m0 z1 z H1 Hz1 L E).
  - subst z1. split; [|reflexivity].
    assert (0 < 10 ^ z) by (apply Z.pow_pos_nonneg; lia). nia.
  - destruct (W m0 m1 z z1 H0 Hz L (eq_sym E)).
Qed.

Lemma toBinary64_shift lo t :
  0 <= lo -> 0 <= t -> toBinary64 lo t = toBinary64 (lo * 10 ^ t) 0.
Proof.
  intros Hlo Ht. unfold toBinary64.
  assert (0 < 10 ^ t) by (apply Z.pow_pos_nonneg; lia).
  assert ((0 <=? t) = true) as -> by (apply Z.leb_le; lia).
  change (0 <=? 0) with true. cbv iota.
  assert ((lo <? 0) = false) as -> by (apply Z.ltb_ge; lia).
  assert ((lo * 10 ^ t <? 0) = false) as -> by (apply Z.ltb_ge; nia).
  rewrite !Z.abs_eq, Z.pow_0_r, Z.mul_1_r by nia. reflexivity.
Qed.

(** A decimal whole number below 2^53 is stored as the same number. *)
Lemma toBinary64_whole lo t :
  0 < lo -> 0 <= t -> lo * 10 ^ t < 2 ^ 53 ->
  exists m1 z1,
    toBinary64 lo t = Fin m1 z1
    /\ m1 mod 10 <> 0 /\ 0 <= z1 /\ m1 * 10 ^ z1 = lo * 10 ^ t.
Proof.
  intros Hlo Ht Hb.
  assert (0 < 10 ^ t) by (apply Z.pow_pos_nonneg; lia).
  rewrite toBinary64_shift, toBinary64_integer by nia.
  destruct (decompose (lo * 10 ^ t) ltac:(nia)) as (m1 & z1 & Hz & Hm & E).
  exists m1, z1. rewrite E at 1. rewrite normalize_spec by assumption.
  repeat split; [exact Hm | exact Hz | now symmetry].
Qed.

Lemma toBinary64_other lo t m0 z :
  0 < lo -> 0 <= t -> lo * 10 ^ t < 2 ^ 53 ->
  m0 mod 10 <> 0 -> 0 <= z ->
  lo * 10 ^ t <> m0 * 10 ^ z ->
  JsNumber.eqb (toBinary64 lo t) (Fin m0 z) = false.
Proof.
  intros Hlo Ht Hb Hm Hz Hne.
  destruct (toBinary64_whole lo t Hlo Ht Hb) as (m1 & z1 & -> & H1 & Hz1 & E).
  cbn [JsNumber.eqb]. apply andb_false_iff.
  destruct (Z.eq_dec m1 m0) as [->|Hd]; [|left; now apply Z.eqb_neq].
  right. apply Z.eqb_neq. intros ->. apply Hne. now rewrite <- E.
Qed.

Lemma toBinary64_same m0 z :
  0 < m0 -> m0 mod 10 <> 0 -> 0 <= z -> m0 * 10 ^ z < 2 ^ 53 ->
  toBinary64 m0 z = Fin m0 z.
Proof.
  intros H Hm Hz Hb.
  destruct (toBinary64_whole m0 z H Hz Hb) as (m1 & z1 & -> & H1 & Hz1 & E).
  destruct (decompose_unique m1 z1 m0 z H1 Hm Hz1 Hz E) as [-> ->].
  reflexivity.
Qed.

Lemma shortestDigits_S fuel k a e x :
  shortestDigits (S fuel) k a e x
  = let t := Z.of_nat (length (decimalDigits a)) + e - k in
    let lo := if t <=? e then a * 10 ^ (e - t) else a / 10 ^ (t - e) in
    let hi := lo + 1 in
    let okLo := JsNumber.eqb (toBinary64 lo t) x in
    let okHi := JsNumber.eqb (toBinary64 hi t) x in
    if (okLo && okHi)%bool then
      if t <=? e then Some (lo, t)
      else
        let d := 10 ^ (t - e) in
        let r := a mod d in
        if 2 * r <? d then Some (lo, t)
        else if d <? 2 * r then Some (hi, t)
        else if Z.even lo then Some (lo, t) else Some (hi, t)
    else if okLo then Some (lo, t)
    else if okHi then Some (hi, t)
    else shortestDigits fuel (k + 1) a e x.
Proof. reflexivity. Qed.

(** For a whole number of at most 15 digits, no decimal of fewer digits
    reads back as the same value, and its own digits do. *)
Lemma shortestDigits_whole m0 z :
  0 < m0 -> m0 mod 10 <> 0 -> 0 <= z -> m0 * 10 ^ z < 10 ^ 15 ->
  forall fuel k,
    1 <= k <= Z.of_nat (length (decimalDigits m0)) ->
    (Z.to_nat (Z.of_nat (length (decimalDigits m0)) - k) < fuel)%nat ->
    shortestDigits fuel k m0 z (Fin m0 z) = Some (m0, z).
Proof.
  intros H Hm Hz Hb.
  set (d := Z.of_nat (length (decimalDigits m0))).
  assert (Hd : 10 ^ (d - 1) <= m0).
  { subst d. unfold decimalDigits. rewrite length_rev.
    now apply length_revDigits_lower. }
  assert (Pz : 0 < 10 ^ z) by (apply Z.pow_pos_nonneg; lia).
  assert (B53 : 2 * 10 ^ 15 < 2 ^ 53) by reflexivity.
  induction fuel as [|fuel IH]; intros k Hk Hf; [lia|].
  rewrite shortestDigits_S. fold d. cbv zeta.
  destruct (Z.eq_dec k d) as [->|Hkd].
  - replace (d + z - d) with z by lia.
    rewrite Z.leb_refl, Z.sub_diag, Z.pow_0_r, Z.mul_1_r.
    rewrite (toBinary64_same m0 z) by (try assumption; lia).
    cbn [JsNumber.eqb]. rewrite !Z.eqb_refl. cbn [andb].
    destruct (JsNumber.eqb (toBinary64 (m0 + 1) z) (Fin m0 z)); reflexivity.
  - set (j := d - k). assert (Hj : 1 <= j) by (subst j; lia).
    replace (d + z - k) with (j + z) by (subst j; lia).
    assert ((j + z <=? z) = false) as -> by (apply Z.leb_gt; lia).
    replace (j + z - z) with j by lia.
    assert (Pj : 0 < 10 ^ j) by (apply Z.pow_pos_nonneg; lia).
    assert (Pjd : 10 ^ j <= m0).
    { eapply Z.le_trans; [|exact Hd]. apply Z.pow_le_mono_r; subst j; lia. }
    set (lo := m0 / 10 ^ j).
    assert (Hlo : 0 < lo) by (subst lo; apply Z.div_str_pos; lia).
    pose proof (Z.mul_div_le m0 (10 ^ j) Pj) as D1. fold lo in D1.
    pose proof (Z.mul_succ_div_gt m0 (10 ^ j) Pj) as D2. fold lo in D2.
    assert (Hne : lo * 10 ^ j <> m0).
    { intros E. apply Hm. rewrite <- E.
      replace j with (j - 1 + 1) by lia.
      rewrite Z.pow_add_r, Z.pow_1_r, Z.mul_assoc by lia.
      apply Z.mod_mul. lia. }
    assert (JsNumber.eqb (toBinary64 lo (j + z)) (Fin m0 z) = false) as ->.
    { apply toBinary64_other; try assumption; try lia;
        rewrite Z.pow_add_r by lia; nia. }
    assert (JsNumber.eqb (toBinary64 (lo + 1) (j + z)) (Fin m0 z) = false) as ->.
    { apply toBinary64_other; try assumption; try lia;
        rewrite Z.pow_add_r by lia; nia. }
    cbn [andb]. apply IH; [lia|]. subst j. lia.
Qed.

(** The text of what a whole number of at most 15 digits is stored as is
    that number in decimal digits. *)
Lemma toString_whole n :
  0 <= n < 10 ^ 15 -> toString (toBinary64 n 0) = decimalDigits n.
Proof.
  intros H. destruct (Z.eq_dec n 0) as [->|Hn]; [reflexivity|].
  assert (B53 : 10 ^ 15 < 2 ^ 53) by reflexivity.
  rewrite toBinary64_integer by lia.
  destruct (decompose n Hn) as (m0 & z & Hz & Hm & ->).
  assert (Pz : 0 < 10 ^ z) by (apply Z.pow_pos_nonneg; lia).
  assert (H0 : 0 < m0) by nia.
  rewrite normalize_spec by assumption. rewrite Z.add_0_l.
  unfold toString.
  assert ((m0 =? 0) = false) as -> by (apply Z.eqb_neq; lia).
  assert ((m0 <? 0) = false) as -> by (apply Z.ltb_ge; lia).
  unfold toStringShortest.
  replace (normalize m0 z) with (Fin m0 z).
  2:{ rewrite <- (Z.mul_1_r m0) at 2. rewrite <- (Z.pow_0_r 10).
      rewrite normalize_spec by (try assumption; lia). f_equal. lia. }
  set (d := Z.of_nat (length (decimalDigits m0))).
  assert (Hd : 10 ^ (d - 1) <= m0).
  { subst d. unfold decimalDigits. rewrite length_rev.
    now apply length_revDigits_lower. }
  assert (Hd1 : 1 <= d).
  { subst d. pose proof (decimalDigits_nonempty m0).
    destruct (decimalDigits m0); [congruence | cbn [length]; lia]. }
  assert (Hd15 : d + z <= 15).
  { apply Z.lt_succ_r.
    apply (Z.pow_lt_mono_r_iff 10); [lia | lia|].
    replace (Z.succ 15) with (15 + 1) by lia.
    replace (d + z) with (d - 1 + z + 1) by lia.
    rewrite !(Z.pow_add_r _ _ 1), Z.pow_add_r by lia. nia. }
  rewrite (shortestDigits_whole m0 z H0 Hm Hz) by (fold d; lia).
  rewrite <- (Z2Nat.id z Hz).
  rewrite toStringPositive_whole, decimalDigits_shift
    by (try assumption; fold d; lia).
  reflexivity.
Qed.

(** X14. A typed whole radius goes out as typed: for a whole number of at
    most 15 digits written in decimal digits, the stored number prints as
    the same digits, and these are the [distanceKm] parameter of the
    query. *)
Theorem integer_radius_round_trip (n : Z) (s : State) :
  0 <= n < 10 ^ 15 ->
  let s' := exec (distance_onChange (decimalDigits n)) s in
  toString (distanceKm s') = decimalDigits n
  /\ hd_error (buildQueryParams s') = Some (`"distanceKm", decimalDigits n).
Proof.
  intros H s'.
  assert (B53 : 10 ^ 15 < 2 ^ 53) by reflexivity.
  assert (E : distanceKm s' = toBinary64 n 0).
  { subst s'. unfold distance_onChange.
    rewrite (Number_decimalDigits n) by lia.
    destruct (toBinary64_integer_value n ltac:(lia)) as (m & e & -> & _).
    reflexivity. }
  assert (T : toString (distanceKm s') = decimalDigits n).
  { rewrite E. now apply toString_whole. }
  split; [exact T|].
  unfold buildQueryParams. rewrite T.
  destruct (coords s'); [reflexivity|].
  destruct (truthy (trim (postalCode s'))); reflexivity.
Qed.

Lemma integer_radius_round_trip_witness :
  hd_error (buildQueryParams
              (exec (distance_onChange (decimalDigits 150)) initialState))
  = Some (`"distanceKm", `"150").
Proof.
  apply (integer_radius_round_trip 150 initialState). lia.
Defined.

(** ** The query string *)

Ltac bool_url :=
  unfold urlSafe, isDigit, inRange in *;
  repeat rewrite ?orb_false_iff, ?andb_false_iff, ?andb_true_iff,
    ?orb_true_iff, ?N.leb_le, ?N.leb_gt, ?N.eqb_neq, ?N.eqb_eq,
    ?N.ltb_lt, ?N.ltb_ge in *;
  lia.

Lemma hexDigit_safe d : (d < 16)%N -> urlSafe (URLSearchParams.hexDigit d) = true.
Proof.
  intros H. unfold URLSearchParams.hexDigit.
  destruct (d <? 10)%N eqn:E; bool_url.
Qed.

Lemma encodeByte_safe b :
  (b < 256)%N -> forallb urlSafe (URLSearchParams.encodeByte b) = true.
Proof.
  intros H. unfold URLSearchParams.encodeByte.
  destruct (N.eqb b 32); [reflexivity|].
  destruct (inRange 48 57 b || inRange 65 90 b || inRange 97 122 b
            || N.eqb b 42 || N.eqb b 45 || N.eqb b 46 || N.eqb b 95)%bool eqn:E.
  - cbn [forallb]. rewrite andb_true_r. bool_url.
  - cbn [forallb].
    rewrite !hexDigit_safe; [reflexivity | |].
    + apply N.mod_lt. discriminate.
    + apply N.Div0.div_lt_upper_bound. exact H.
Qed.

Lemma utf8_bytes cp :
  (cp < 1114112)%N ->
  forallb (fun b => N.ltb b 256) (URLSearchParams.utf8 cp) = true.
Proof.
  intros H. unfold URLSearchParams.utf8.
  pose proof (N.mod_lt cp 64 ltac:(discriminate)).
  pose proof (N.mod_lt (cp / 64) 64 ltac:(discriminate)).
  pose proof (N.mod_lt (cp / 4096) 64 ltac:(discriminate)).
  destruct (cp <? 128)%N eqn:E1; [|destruct (cp <? 2048)%N eqn:E2;
    [|destruct (cp <? 65536)%N eqn:E3]];
    cbn [forallb]; rewrite ?andb_true_r, ?andb_true_iff, ?N.ltb_lt;
    rewrite ?N.ltb_lt, ?N.ltb_ge in *.
  - lia.
  - assert (cp / 64 < 32)%N by (apply N.Div0.div_lt_upper_bound; lia). lia.
  - assert (cp / 4096 < 16)%N by (apply N.Div0.div_lt_upper_bound; lia). lia.
  - assert (cp / 262144 < 5)%N by (apply N.Div0.div_lt_upper_bound; lia). lia.
Qed.

Lemma scalarValues_bound_aux n : forall s,
  (length s <= n)%nat ->
  wellFormed s = true ->
  forallb (fun c => N.ltb c 1114112) (URLSearchParams.scalarValues s) = true.
Proof.
  induction n as [|n IH]; intros s L W.
  { destruct s; [reflexivity | cbn in L; lia]. }
  destruct s as [|c r]; [reflexivity|].
  cbn in L. cbn [wellFormed forallb] in W.
  apply andb_true_iff in W. destruct W as [Wc Wr].
  apply N.ltb_lt in Wc.
  cbn [URLSearchParams.scalarValues].
  destruct (inRange 55296 56319 c) eqn:Eh.
  - destruct r as [|d r'].
    + reflexivity.
    + cbn [forallb] in Wr. apply andb_true_iff in Wr.
      destruct Wr as [Wd Wr']. apply N.ltb_lt in Wd.
      destruct (inRange 56320 57343 d) eqn:El.
      * cbn [forallb]. apply andb_true_iff. split.
        -- unfold inRange in *. apply andb_true_iff in Eh, El.
           rewrite !N.leb_le in Eh, El. apply N.ltb_lt. lia.
        -- apply IH; [cbn in L; lia | exact Wr'].
      * cbn [forallb]. apply andb_true_iff. split; [reflexivity|].
        apply IH; [lia|]. cbn [wellFormed forallb].
        apply andb_true_iff. split; [now apply N.ltb_lt | exact Wr'].
  - destruct (inRange 56320 57343 c).
    + cbn [forallb]. apply andb_true_iff. split; [reflexivity|].
      apply IH; [lia | exact Wr].
    + cbn [forallb]. apply andb_true_iff. split; [apply N.ltb_lt; lia|].
      apply IH; [lia | exact Wr].
Qed.

Lemma forallb_flat_map {A B} (p : B -> bool) (q : A -> bool)
  (f : A -> list B) (l : list A) :
  (forall x, q x = true -> forallb p (f x) = true) ->
  forallb q l = true ->
  forallb p (flat_map f l) = true.
Proof.
  intros Hf. induction l as [|x l IH]; intros H; [reflexivity|].
  cbn in H. apply andb_true_iff in H. destruct H as [Hx Hl].
  cbn [flat_map]. rewrite forallb_app, (Hf x Hx), (IH Hl). reflexivity.
Qed.

Lemma encode_safe v :
  wellFormed v = true -> forallb urlSafe (URLSearchParams.encode v) = true.
Proof.
  intros W. unfold URLSearchParams.encode.
  apply (forallb_flat_map urlSafe (fun b => N.ltb b 256)).
  - intros b Hb. apply encodeByte_safe. now apply N.ltb_lt.
  - apply (forallb_flat_map _ (fun c => N.ltb c 1114112)).
    + intros cp Hcp. apply utf8_bytes. now apply N.ltb_lt.
    + now apply (scalarValues_bound_aux (length v)).
Qed.

Lemma encode_digits v : allDigits v = true -> URLSearchParams.encode v = v.
Proof.
  intros H. unfold URLSearchParams.encode.
  induction v as [|c v IH]; [reflexivity|].
  cbn in H. apply andb_true_iff in H. destruct H as [Hc Hv].
  cbn [URLSearchParams.scalarValues].
  assert (inRange 55296 56319 c = false) as -> by bool_url.
  assert (inRange 56320 57343 c = false) as -> by bool_url.
  cbn [flat_map]. unfold URLSearchParams.utf8 at 1.
  assert ((c <? 128)%N = true) as -> by bool_url.
  cbn [app flat_map]. unfold URLSearchParams.encodeByte at 1.
  assert (N.eqb c 32 = false) as -> by bool_url.
  assert ((inRange 48 57 c || inRange 65 90 c || inRange 97 122 c
           || N.eqb c 42 || N.eqb c 45 || N.eqb c 46 || N.eqb c 95)%bool = true)
    as ->.
  { unfold isDigit in Hc. rewrite Hc. reflexivity. }
  cbn [app]. f_equal. now apply IH.
Qed.

(** X15. Without coordinates, the text of the postal code cannot add to
    the query: whatever 16-bit characters it holds, the query is
    [distanceKm=...&postalCode=w] where [w] has letters, digits and
    [*-._+%] only, so no [&], [=], [#] or space. *)
Theorem postalCode_cannot_inject (r : State) :
  coords r = None ->
  truthy (trim (postalCode r)) = true ->
  wellFormed (trim (postalCode r)) = true ->
  exists w,
    buildQuery r
    = `"distanceKm=" ++ URLSearchParams.encode (toString (distanceKm r))
        ++ `"&postalCode=" ++ w
    /\ forallb urlSafe w = true
    /\ ~ In 38%N w /\ ~ In 61%N w /\ ~ In 35%N w /\ ~ In 32%N w.
Proof.
  intros Hc Ht W. exists (URLSearchParams.encode (trim (postalCode r))).
  pose proof (encode_safe _ W) as S.
  split.
  - unfold buildQuery, buildQueryParams. rewrite Hc, Ht.
    cbn [URLSearchParams.set URLSearchParams.remove].
    change (JsString.eqb `"distanceKm" `"postalCode") with false.
    cbn [URLSearchParams.set URLSearchParams.toString].
    change (URLSearchParams.encode `"distanceKm") with `"distanceKm".
    change (URLSearchParams.encode `"postalCode") with `"postalCode".
    rewrite <- ?app_assoc. reflexivity.
  - split; [exact S|].
    rewrite forallb_forall in S.
    repeat split; intros I; apply S in I; discriminate I.
Qed.

Lemma postalCode_cannot_inject_witness :
  let r := exec (setPostalCode `"1&lat=0 #") initialState in
  exists w,
    buildQuery r
    = `"distanceKm=" ++ URLSearchParams.encode (toString (distanceKm r))
        ++ `"&postalCode=" ++ w
    /\ forallb urlSafe w = true
    /\ ~ In 38%N w /\ ~ In 61%N w /\ ~ In 35%N w /\ ~ In 32%N w.
Proof.
  intros r. apply (postalCode_cannot_inject r); reflexivity.
Defined.

(** X18. From a state the component reaches, without coordinates and
    with a postal code of five digits, the address requested is the base
    address, the path of the mode, and a query that ends in the postal
    code exactly as stored. *)
Theorem reachable_request_url env navigator (s : State) :
  reachable env navigator s ->
  coords s = None ->
  length (postalCode s) = 5%nat ->
  fst (fetchHotspots_start env s s)
  = Normal (Some (API_BASE_URL env ++ `"/" ++ endpoint s ++ `"?distanceKm="
                    ++ URLSearchParams.encode (toString (distanceKm s))
                    ++ `"&postalCode=" ++ postalCode s)).
Proof.
  intros R Hc L. pose proof (reachable_postalCode_digits _ _ _ R) as D.
  pose proof (trim_digits _ D) as T.
  rewrite fetchHotspots_start_valid.
  2:{ rewrite Hc, T, L. reflexivity. }
  cbn [fst]. unfold buildQuery.
  rewrite buildQueryParams_postalCode by (rewrite ?T; assumption).
  rewrite T. cbn [URLSearchParams.toString].
  rewrite (encode_digits _ D).
  change (URLSearchParams.encode `"distanceKm") with `"distanceKm".
  change (URLSearchParams.encode `"postalCode") with `"postalCode".
  rewrite <- ?app_assoc. reflexivity.
Qed.

Lemma reachable_request_url_witness :
  let env := {| VITE_API_BASE_URL := Some `"https://api.example/v1" |} in
  let navigator := {| geolocation := false |} in
  let s := run env navigator [ModeClicked top; ZipChanged `"80302"]
             (exec modeEffect initialState) in
  fst (fetchHotspots_start env s s)
  = Normal (Some `"https://api.example/v1/hotspots/top?distanceKm=25&postalCode=80302").
Proof.
  intros env navigator s.
  apply (reachable_request_url env navigator s).
  - apply reachable_run. apply reachable_mount.
  - reflexivity.
  - reflexivity.
Defined.

(** ** A whole submit *)

(** X23. A whole submit ends in exactly one of two ways: with
    [hasFetched] true and no error, or with an error, [hasFetched] false
    and no results at all.  Results and an error of the same submit are
    never there together. *)
Theorem submit_dichotomy env (r s : State)
  (network : jsstring -> Completion Response.t) :
  let s' := exec (fetchHotspots env r network) s in
  (hasFetched s' = true /\ error s' = None)
  \/ (hasFetched s' = false /\ error s' <> None
      /\ randomHotspot s' = None /\ topHotspots s' = []).
Proof.
  intros s'. subst s'. unfold exec, fetchHotspots, bind.
  rewrite fetchHotspots_start_cleared.
  destruct (isNull (coords r) && negb (length (trim (postalCode r)) =? 5)%nat)%bool.
  - right. cbn. repeat split. discriminate.
  - set (url := API_BASE_URL env ++ `"/" ++ endpoint r ++ `"?" ++ buildQuery r).
    set (s1 := exec (setLoading true) (cleared s)).
    destruct (settlesToFailure (network url)) eqn:F.
    + destruct (fetchHotspots_settle_failure r s1 (network url) F) as [msg E].
      rewrite E. right. cbn. repeat split. discriminate.
    + left. unfold settlesToFailure in F.
      destruct (network url) as [response|t]; [|discriminate].
      destruct (Response.json response) as [[|payload]|t] eqn:J;
        try discriminate.
      apply negb_false_iff in F.
      handler. rewrite J, F. cbn.
      destruct (mode r); split; reflexivity.
Qed.

(** X22. A status is never hidden: in every state the component reaches,
    the status line is rendered exactly when [status] is not null, with
    the status as its text. *)
Theorem statusBanner_reachable env navigator (s : State) :
  reachable env navigator s ->
  statusBanner s
  = match status s with
    | Some msg => [Element "div" [className "muted"] [Text msg]]
    | None => []
    end.
Proof.
  intros H.
  assert (K : knownStatus (status s) = true).
  { induction H as [|ev s _ IH]; [reflexivity|]. now apply status_step. }
  unfold statusBanner, knownStatus in *.
  destruct (status s) as [m|]; [|reflexivity].
  apply orb_true_iff in K. destruct K as [K|K]; apply eqb_eq in K; subst;
    reflexivity.
Qed.

Lemma statusBanner_reachable_witness :
  let env := {| VITE_API_BASE_URL := None |} in
  let navigator := {| geolocation := true |} in
  let s := run env navigator [LocationClicked] (exec modeEffect initialState) in
  statusBanner s
  = [Element "div" [className "muted"] [Text `"Requesting your location..."]].
Proof.
  intros env navigator s.
  apply (statusBanner_reachable env navigator s).
  apply reachable_run. apply reachable_mount.
Defined.
